(** * KavitaMangaReaderActivity: the BLE session engine of the manga reader

    A shallow embedding of [src/activities/bluetooth/KavitaMangaReaderActivity.cpp]
    (and of the declarations in [KavitaMangaReaderActivity.h]).

    The activity object is a record; every member function is a function from
    the record to the record it leaves behind.  What the member functions do
    to the outside world (UI refresh requests, the [onGoHome] callback, values
    notified on the data characteristic, advertising) is appended to an
    [effects] trace carried by the record.  Logging macros ([LOG_DBG],
    [LOG_INF], [LOG_ERR]) touch no member and are left out.  The calls the
    activity framework and the BLE stack make on the object (the polling
    [loop], [RequestCallbacks::onWrite], [ServerCallbacks::onConnect] and
    [onDisconnect]) are modelled as atomic steps that interleave. *)

From Stdlib Require Import ZArith List String Bool Lia Arith.
From Stdlib Require Import Strings.Byte DecimalString.
Import ListNotations.

Local Open Scope nat_scope.

(** ** Wire constants *)

(** [enum class BleCommand : uint8_t] *)
Module BleCommand.
Definition REQUEST_LIST : byte := x01.
Definition REQUEST_PAGE : byte := x02.
Definition ACKNOWLEDGE : byte := x03.
Definition CANCEL_TRANSFER : byte := x04.
Definition DISCONNECT : byte := x05.
End BleCommand.

(** [enum class BleStatus : uint8_t] *)
Module BleStatus.
Definition OK : byte := x00.
Definition ERROR : byte := x01.
Definition LIST_START : byte := x10.
Definition LIST_ENTRY : byte := x11.
Definition LIST_END : byte := x12.
Definition PAGE_START : byte := x20.
Definition PAGE_DATA : byte := x21.
Definition PAGE_END : byte := x22.
End BleStatus.

(** [((480 * 800 + 7) / 8) * 2] *)
Definition MAX_PAGE_BUFFER_SIZE : nat := ((480 * 800 + 7) / 8) * 2.
Definition DISPLAY_WIDTH : nat := 480.
Definition DISPLAY_HEIGHT : nat := 800.

(** ** Machine integers *)

(** [int] is 32 bits wide on the target; [wrap_int] is the value an [int]
    holds after a conversion or an operation whose mathematical result is
    [z]. *)
Definition INT_MAX : Z := (2 ^ 31 - 1)%Z.
Definition INT_MIN : Z := (- 2 ^ 31)%Z.
Definition wrap_int (z : Z) : Z := ((z + 2 ^ 31) mod 2 ^ 32 - 2 ^ 31)%Z.

(** [static_cast<uint8_t>(n)] for a [size_t] *)
Definition uint8_of_size (n : nat) : byte :=
  match Byte.of_nat (n mod 256) with
  | Some b => b
  | None => x00
  end.

(** [static_cast<uint32_t>(z)] *)
Definition wrap_uint32 (z : Z) : Z := (z mod 2 ^ 32)%Z.

(** ** Data model *)

(** [struct MangaEntry]; a [std::string] is its sequence of bytes. *)
Record MangaEntry : Type := mkMangaEntry {
  id : list byte;
  title : list byte
}.

(** [enum class KavitaMangaReaderState] *)
Inductive KavitaMangaReaderState : Type :=
| CHECK_COMPANION_APP
| WAITING_FOR_APP
| LOAD_LIST
| RECEIVING_LIST
| BROWSING_LIST
| LOAD_PAGE
| RECEIVING_PAGE
| DISPLAY_PAGE
| ERROR.

(** The buttons of [MappedInputManager::Button] the activity asks about. *)
Inductive Button : Type :=
| Back | Confirm | Left | Right | Up | Down | PageBack | PageForward.

(** What a member function does outside the object. *)
Inductive Effect : Type :=
| RequestUpdate                 (* requestUpdate() *)
| GoHome                        (* onGoHome() *)
| Notify (value : list byte)    (* dataCharacteristic->setValue(..); ->notify() *)
| StartAdvertising              (* NimBLEDevice::getAdvertising()->start() *)
| StopAdvertising.              (* NimBLEDevice::getAdvertising()->stop() *)

(** The private members of [KavitaMangaReaderActivity].  A pointer member is
    [true] when it is not [nullptr]. *)
Record Activity : Type := mkActivity {
  state : KavitaMangaReaderState;
  errorMessage : string;
  bleServer : bool;
  kavitaService : bool;
  cmdCharacteristic : bool;
  dataCharacteristic : bool;
  mangaList : list MangaEntry;
  currentMangaIndex : Z;
  effects : list Effect
}.

(** The member initialisers of the class declaration. *)
Definition constructed : Activity :=
  {| state := CHECK_COMPANION_APP;
     errorMessage := EmptyString;
     bleServer := false;
     kavitaService := false;
     cmdCharacteristic := false;
     dataCharacteristic := false;
     mangaList := [];
     currentMangaIndex := (-1)%Z;
     effects := [] |}.

(** *** Assignments to single members *)

Definition set_state (s : KavitaMangaReaderState) (a : Activity) : Activity :=
  {| state := s;
     errorMessage := errorMessage a;
     bleServer := bleServer a;
     kavitaService := kavitaService a;
     cmdCharacteristic := cmdCharacteristic a;
     dataCharacteristic := dataCharacteristic a;
     mangaList := mangaList a;
     currentMangaIndex := currentMangaIndex a;
     effects := effects a |}.

Definition set_errorMessage (m : string) (a : Activity) : Activity :=
  {| state := state a;
     errorMessage := m;
     bleServer := bleServer a;
     kavitaService := kavitaService a;
     cmdCharacteristic := cmdCharacteristic a;
     dataCharacteristic := dataCharacteristic a;
     mangaList := mangaList a;
     currentMangaIndex := currentMangaIndex a;
     effects := effects a |}.

Definition set_mangaList (l : list MangaEntry) (a : Activity) : Activity :=
  {| state := state a;
     errorMessage := errorMessage a;
     bleServer := bleServer a;
     kavitaService := kavitaService a;
     cmdCharacteristic := cmdCharacteristic a;
     dataCharacteristic := dataCharacteristic a;
     mangaList := l;
     currentMangaIndex := currentMangaIndex a;
     effects := effects a |}.

Definition set_currentMangaIndex (i : Z) (a : Activity) : Activity :=
  {| state := state a;
     errorMessage := errorMessage a;
     bleServer := bleServer a;
     kavitaService := kavitaService a;
     cmdCharacteristic := cmdCharacteristic a;
     dataCharacteristic := dataCharacteristic a;
     mangaList := mangaList a;
     currentMangaIndex := i;
     effects := effects a |}.

Definition set_ble (server service cmd data : bool) (a : Activity) : Activity :=
  {| state := state a;
     errorMessage := errorMessage a;
     bleServer := server;
     kavitaService := service;
     cmdCharacteristic := cmd;
     dataCharacteristic := data;
     mangaList := mangaList a;
     currentMangaIndex := currentMangaIndex a;
     effects := effects a |}.

Definition emit (e : Effect) (a : Activity) : Activity :=
  {| state := state a;
     errorMessage := errorMessage a;
     bleServer := bleServer a;
     kavitaService := kavitaService a;
     cmdCharacteristic := cmdCharacteristic a;
     dataCharacteristic := dataCharacteristic a;
     mangaList := mangaList a;
     currentMangaIndex := currentMangaIndex a;
     effects := effects a ++ [e] |}.

Definition requestUpdate : Activity -> Activity := emit RequestUpdate.
Definition onGoHome : Activity -> Activity := emit GoHome.

(** [static_cast<int>(mangaList.size())] *)
Definition size_as_int (a : Activity) : Z :=
  wrap_int (Z.of_nat (List.length (mangaList a))).

(** ** BLE set-up *)

(** [setupBLE] stores the server, the service and both characteristics the
    stack hands back, and dereferences each of them at once. *)
Definition setupBLE (a : Activity) : Activity :=
  set_ble true true true true a.

Definition startAdvertising (a : Activity) : Activity :=
  emit StartAdvertising a.

Definition stopAdvertising (a : Activity) : Activity :=
  if bleServer a then emit StopAdvertising a else a.

(** ** Activity life cycle *)

Definition onEnter (a : Activity) : Activity :=
  let a := set_state CHECK_COMPANION_APP a in
  let a := set_errorMessage EmptyString a in
  let a := set_mangaList [] a in
  let a := set_currentMangaIndex (-1)%Z a in
  let a := setupBLE a in
  let a := startAdvertising a in
  requestUpdate a.

Definition onExit (a : Activity) : Activity :=
  let a := stopAdvertising a in
  set_mangaList [] a.

(** ** State machine handlers *)

(** [bleServer && bleServer->getConnectedCount() > 0] *)
Definition peerConnected (connectedCount : nat) (a : Activity) : bool :=
  bleServer a && (0 <? connectedCount).

Definition handleCheckCompanionApp (connectedCount : nat) (a : Activity)
  : Activity :=
  let a :=
    if peerConnected connectedCount a
    then set_state LOAD_LIST a
    else set_state WAITING_FOR_APP a in
  requestUpdate a.

Definition handleWaitForCompanionApp (connectedCount : nat) (a : Activity)
  : Activity :=
  if peerConnected connectedCount a
  then requestUpdate (set_state LOAD_LIST a)
  else a.

(** The test is on [cmdCharacteristic], the object used is
    [dataCharacteristic]: with the first set and the second null the call
    goes through a null pointer and the function has no result. *)
Definition handleLoadList (a : Activity) : option Activity :=
  let a := set_mangaList [] a in
  if cmdCharacteristic a then
    if dataCharacteristic a then
      let a := emit (Notify [BleCommand.REQUEST_LIST]) a in
      let a := set_state RECEIVING_LIST a in
      Some (requestUpdate a)
    else None
  else
    let a := set_errorMessage "BLE not initialized" a in
    let a := set_state ERROR a in
    Some (requestUpdate a).

Definition handleReceiveList (a : Activity) : Activity := a.

(** The three cursor and selection blocks of [handleBrowsingList]. *)
Definition browseUp (wasPressed : Button -> bool) (a : Activity) : Activity :=
  if wasPressed Up then
    if (0 <? currentMangaIndex a)%Z
    then requestUpdate
           (set_currentMangaIndex (wrap_int (currentMangaIndex a - 1)) a)
    else a
  else a.

Definition browseDown (wasPressed : Button -> bool) (a : Activity) : Activity :=
  if wasPressed Down then
    if (currentMangaIndex a <? wrap_int (size_as_int a - 1))%Z
    then requestUpdate
           (set_currentMangaIndex (wrap_int (currentMangaIndex a + 1)) a)
    else a
  else a.

(** [currentMangaIndex >= 0 && currentMangaIndex < static_cast<int>(mangaList.size())] *)
Definition selectionValid (a : Activity) : bool :=
  ((0 <=? currentMangaIndex a) && (currentMangaIndex a <? size_as_int a))%Z.

Definition browseConfirm (wasPressed : Button -> bool) (a : Activity)
  : Activity :=
  if wasPressed Confirm then
    if selectionValid a
    then requestUpdate (set_state LOAD_PAGE a)
    else a
  else a.

Definition handleBrowsingList (wasPressed : Button -> bool) (a : Activity)
  : Activity :=
  if wasPressed Back then onGoHome a
  else browseConfirm wasPressed (browseDown wasPressed (browseUp wasPressed a)).

(** [uint8_t requestBuffer[1 + 1 + mangaId.length() + 2]] as
    [handleLoadPage] fills it: command, length byte, the id, and the two
    page-number bytes, both written as the constant 0. *)
Definition requestBuffer (mangaId : list byte) : list byte :=
  [BleCommand.REQUEST_PAGE; uint8_of_size (List.length mangaId)]
    ++ mangaId ++ [x00; x00].

Definition handleLoadPage (a : Activity) : Activity :=
  if ((currentMangaIndex a <? 0) || (size_as_int a <=? currentMangaIndex a))%Z
  then
    let a := set_errorMessage "Invalid manga selection" a in
    let a := set_state ERROR a in
    requestUpdate a
  else
    let mangaId :=
      id (nth (Z.to_nat (currentMangaIndex a)) (mangaList a)
              (mkMangaEntry [] [])) in
    if dataCharacteristic a then
      let a := emit (Notify (requestBuffer mangaId)) a in
      let a := set_state RECEIVING_PAGE a in
      requestUpdate a
    else
      let a := set_errorMessage "BLE not initialized" a in
      let a := set_state ERROR a in
      requestUpdate a.

Definition handleReceivingPage (a : Activity) : Activity := a.

Definition handleDisplayPage (wasPressed : Button -> bool) (a : Activity)
  : Activity :=
  if wasPressed Back then requestUpdate (set_state BROWSING_LIST a)
  else
    let a :=
      if wasPressed Left || wasPressed PageBack
      then requestUpdate (set_state LOAD_PAGE a)
      else a in
    if wasPressed Right || wasPressed PageForward
    then requestUpdate (set_state LOAD_PAGE a)
    else a.

Definition handleError (wasPressed : Button -> bool) (a : Activity)
  : Activity :=
  if wasPressed Back || wasPressed Confirm then onGoHome a else a.

(** [loop]: the parent's [ActivityWithSubactivity::loop] runs first; it has
    no access to the private members above.  Then the dispatch on [state]. *)
Definition loop (connectedCount : nat) (wasPressed : Button -> bool)
  (a : Activity) : option Activity :=
  match state a with
  | CHECK_COMPANION_APP => Some (handleCheckCompanionApp connectedCount a)
  | WAITING_FOR_APP => Some (handleWaitForCompanionApp connectedCount a)
  | LOAD_LIST => handleLoadList a
  | RECEIVING_LIST => Some (handleReceiveList a)
  | BROWSING_LIST => Some (handleBrowsingList wasPressed a)
  | LOAD_PAGE => Some (handleLoadPage a)
  | RECEIVING_PAGE => Some (handleReceivingPage a)
  | DISPLAY_PAGE => Some (handleDisplayPage wasPressed a)
  | ERROR => Some (handleError wasPressed a)
  end.

(** ** BLE server callbacks *)

Definition onConnect (a : Activity) : Activity := requestUpdate a.

Definition onDisconnect (reason : Z) (a : Activity) : Activity :=
  requestUpdate (set_state WAITING_FOR_APP a).

(** ** BLE characteristic callback *)

(** [data[i]] as a number, for an index the caller has checked. *)
Definition byteAt (data : list byte) (i : nat) : nat :=
  Byte.to_nat (nth i data x00).

(** [std::string(reinterpret_cast<const char*>(&data[off]), len)] *)
Definition substring (data : list byte) (off len : nat) : list byte :=
  firstn len (skipn off data).

(** [(data[1] << 24) | (data[2] << 16) | (data[3] << 8) | data[4]] stored in
    a [uint32_t]. *)
Definition chunkOffset (data : list byte) : Z :=
  wrap_uint32
    (Z.lor (Z.lor (Z.lor (Z.shiftl (Z.of_nat (byteAt data 1)) 24)
                         (Z.shiftl (Z.of_nat (byteAt data 2)) 16))
                  (Z.shiftl (Z.of_nat (byteAt data 3)) 8))
           (Z.of_nat (byteAt data 4))).

Definition onWrite (data : list byte) (a : Activity) : Activity :=
  let length := List.length data in
  if length =? 0 then a
  else
    let status := nth 0 data x00 in
    if Byte.eqb status BleStatus.LIST_START then
      set_mangaList [] a
    else if Byte.eqb status BleStatus.LIST_ENTRY then
      if 3 <=? length then
        let idLen := byteAt data 1 in
        if 2 + idLen + 1 <=? length then
          let id := substring data 2 idLen in
          let titleLen := byteAt data (2 + idLen) in
          if 2 + idLen + 1 + titleLen <=? length then
            let title := substring data (2 + idLen + 1) titleLen in
            set_mangaList (mangaList a ++ [mkMangaEntry id title]) a
          else a
        else a
      else a
    else if Byte.eqb status BleStatus.LIST_END then
      let a :=
        set_currentMangaIndex
          (match mangaList a with [] => (-1)%Z | _ :: _ => 0%Z end) a in
      let a := set_state BROWSING_LIST a in
      requestUpdate a
    else if Byte.eqb status BleStatus.PAGE_START then
      a
    else if Byte.eqb status BleStatus.PAGE_DATA then
      if 5 <? length then
        let offset := chunkOffset data in
        let chunkData := skipn 5 data in
        let chunkSize := length - 5 in
        a
      else a
    else if Byte.eqb status BleStatus.PAGE_END then
      requestUpdate (set_state DISPLAY_PAGE a)
    else if Byte.eqb status BleStatus.ERROR then
      let a := set_errorMessage "Companion app error" a in
      let a := set_state ERROR a in
      requestUpdate a
    else a.

(** ** The engine's entry points as events *)

(** One event per call the framework or the BLE stack makes on the activity.
    A [Tick] carries what [loop] reads from outside during that call: the
    server's connected-peer count and the buttons [wasPressed] reports. *)
Inductive Event : Type :=
| Enter
| Exit
| Tick (connectedCount : nat) (wasPressed : Button -> bool)
| PeerConnected
| PeerDisconnected (reason : Z)
| FrameReceived (data : list byte).

Definition step (e : Event) (a : Activity) : option Activity :=
  match e with
  | Enter => Some (onEnter a)
  | Exit => Some (onExit a)
  | Tick connectedCount wasPressed => loop connectedCount wasPressed a
  | PeerConnected => Some (onConnect a)
  | PeerDisconnected reason => Some (onDisconnect reason a)
  | FrameReceived data => Some (onWrite data a)
  end.

Fixpoint run (es : list Event) (a : Activity) : option Activity :=
  match es with
  | [] => Some a
  | e :: es' =>
      match step e a with
      | Some a' => run es' a'
      | None => None
      end
  end.

(** The activities a session can be in: the freshly constructed object and
    whatever the events make of it. *)
Inductive reachable : Activity -> Prop :=
| reachable_constructed : reachable constructed
| reachable_step (a a' : Activity) (e : Event) :
    reachable a -> step e a = Some a' -> reachable a'.

(** No button pressed, and exactly one button pressed. *)
Definition noButton : Button -> bool := fun _ => false.

Definition Button_eqb (x y : Button) : bool :=
  match x, y with
  | Back, Back | Confirm, Confirm | Left, Left | Right, Right
  | Up, Up | Down, Down | PageBack, PageBack | PageForward, PageForward => true
  | _, _ => false
  end.

Definition press (b : Button) : Button -> bool := Button_eqb b.

(** The status byte of a frame, when it has one. *)
Definition statusOf (data : list byte) : option byte := nth_error data 0.


(** What [setupBLE] establishes about the two characteristics: where the
    command characteristic is set, so is the data characteristic. *)
Definition bleConsistent (a : Activity) : Prop :=
  cmdCharacteristic a = true -> dataCharacteristic a = true.


(** ** The transition table of the specification (section 4.1)

    The definitions of this module follow the words of the specification,
    not the code; they are what the code is compared with. *)
Module SessionTable.

(** The triggers the table names, and [other] for anything else. *)
Inductive Trigger : Type :=
| session_entry
| peer_connected
| no_peer
| send_succeeds
| transport_unavailable
| list_end_message
| peer_error_message
| confirm_on_valid_selection
| back_input
| confirm_input
| selection_invalid
| page_end_message
| prev_next_input
| peer_disconnected
| other.

Inductive Outcome : Type :=
| Goto (s : KavitaMangaReaderState)
| SessionExit.

(** The rows of the table, first match; a trigger with no row for the
    current state leaves the state unchanged.  Entering the session is no
    row of the table.  The active states of the peer-disconnected row are
    all states but ERROR, which is left by dismissal only. *)
Definition spec_table (s : KavitaMangaReaderState) (t : Trigger) : Outcome :=
  match s, t with
  | CHECK_COMPANION_APP, peer_connected => Goto LOAD_LIST
  | CHECK_COMPANION_APP, no_peer => Goto WAITING_FOR_APP
  | WAITING_FOR_APP, peer_connected => Goto LOAD_LIST
  | LOAD_LIST, send_succeeds => Goto RECEIVING_LIST
  | LOAD_LIST, transport_unavailable => Goto ERROR
  | RECEIVING_LIST, list_end_message => Goto BROWSING_LIST
  | RECEIVING_LIST, peer_error_message => Goto ERROR
  | BROWSING_LIST, confirm_on_valid_selection => Goto LOAD_PAGE
  | BROWSING_LIST, back_input => SessionExit
  | LOAD_PAGE, selection_invalid => Goto ERROR
  | LOAD_PAGE, send_succeeds => Goto RECEIVING_PAGE
  | RECEIVING_PAGE, page_end_message => Goto DISPLAY_PAGE
  | DISPLAY_PAGE, back_input => Goto BROWSING_LIST
  | DISPLAY_PAGE, prev_next_input => Goto LOAD_PAGE
  | ERROR, peer_disconnected => Goto ERROR
  | _, peer_disconnected => Goto WAITING_FOR_APP
  | ERROR, back_input => SessionExit
  | ERROR, confirm_input => SessionExit
  | _, _ => Goto s
  end.

(** The same table with the three inbound messages and the disconnect
    taken in every state, ERROR included, with the unavailable transport
    also caught in [LOAD_PAGE], and with the entry of the session leading to
    the initial state from wherever the activity was left. *)
Definition handler_table (s : KavitaMangaReaderState) (t : Trigger)
  : Outcome :=
  match s, t with
  | _, session_entry => Goto CHECK_COMPANION_APP
  | _, peer_disconnected => Goto WAITING_FOR_APP
  | _, list_end_message => Goto BROWSING_LIST
  | _, page_end_message => Goto DISPLAY_PAGE
  | _, peer_error_message => Goto ERROR
  | LOAD_PAGE, transport_unavailable => Goto ERROR
  | _, _ => spec_table s t
  end.

(** Where the code departs from the table: the three inbound messages
    outside the state the table gives them, the unavailable transport in
    [LOAD_PAGE], the disconnect in [ERROR], and the entry of the session. *)
Definition departs (s : KavitaMangaReaderState) (t : Trigger) : bool :=
  match s, t with
  | RECEIVING_LIST, list_end_message => false
  | _, list_end_message => true
  | RECEIVING_PAGE, page_end_message => false
  | _, page_end_message => true
  | RECEIVING_LIST, peer_error_message => false
  | _, peer_error_message => true
  | LOAD_PAGE, transport_unavailable => true
  | ERROR, peer_disconnected => true
  | _, session_entry => true
  | _, _ => false
  end.

(** A row of the table as section 4.1 prints it. *)
Definition listed (s : KavitaMangaReaderState) (t : Trigger) : bool :=
  match s, t with
  | ERROR, peer_disconnected => false
  | CHECK_COMPANION_APP, peer_connected
  | CHECK_COMPANION_APP, no_peer
  | WAITING_FOR_APP, peer_connected
  | LOAD_LIST, send_succeeds
  | LOAD_LIST, transport_unavailable
  | RECEIVING_LIST, list_end_message
  | RECEIVING_LIST, peer_error_message
  | BROWSING_LIST, confirm_on_valid_selection
  | BROWSING_LIST, back_input
  | LOAD_PAGE, selection_invalid
  | LOAD_PAGE, send_succeeds
  | RECEIVING_PAGE, page_end_message
  | DISPLAY_PAGE, back_input
  | DISPLAY_PAGE, prev_next_input
  | _, peer_disconnected
  | ERROR, back_input
  | ERROR, confirm_input => true
  | _, _ => false
  end.

(** What an event amounts to in the table's vocabulary, given the activity
    it arrives at.  A peer counts as connected when [loop] finds one; the
    [onConnect] callback itself only asks for a redraw. *)
Definition trigger_of (e : Event) (a : Activity) : Trigger :=
  match e with
  | Enter => session_entry
  | Exit => other
  | PeerConnected => other
  | PeerDisconnected _ => peer_disconnected
  | FrameReceived data =>
      match statusOf data with
      | Some x12 => list_end_message
      | Some x22 => page_end_message
      | Some x01 => peer_error_message
      | _ => other
      end
  | Tick connectedCount wasPressed =>
      match state a with
      | CHECK_COMPANION_APP =>
          if peerConnected connectedCount a then peer_connected else no_peer
      | WAITING_FOR_APP =>
          if peerConnected connectedCount a then peer_connected else other
      | LOAD_LIST =>
          if cmdCharacteristic a then send_succeeds
          else transport_unavailable
      | RECEIVING_LIST => other
      | BROWSING_LIST =>
          if wasPressed Back then back_input
          else if wasPressed Confirm
                  && selectionValid
                       (browseDown wasPressed (browseUp wasPressed a))
          then confirm_on_valid_selection
          else other
      | LOAD_PAGE =>
          if negb (selectionValid a) then selection_invalid
          else if dataCharacteristic a then send_succeeds
          else transport_unavailable
      | RECEIVING_PAGE => other
      | DISPLAY_PAGE =>
          if wasPressed Back then back_input
          else if wasPressed Left || wasPressed PageBack
                  || wasPressed Right || wasPressed PageForward
          then prev_next_input
          else other
      | ERROR =>
          if wasPressed Back then back_input
          else if wasPressed Confirm then confirm_input
          else other
      end
  end.

(** The activity [a'] an event left behind is where the table says: in the
    named state, or, for a session exit, handed back to the caller through
    [onGoHome] with the state as it was. *)
Definition reaches (a a' : Activity) (o : Outcome) : Prop :=
  match o with
  | Goto s => state a' = s
  | SessionExit => state a' = state a /\ effects a' = effects a ++ [GoHome]
  end.

End SessionTable.

(** ** Which events may touch the list and the cursor *)

Definition isStatus (tag : byte) (data : list byte) : bool :=
  match statusOf data with
  | Some b => Byte.eqb b tag
  | None => false
  end.

(** The events that can change [mangaList]: entering and leaving the
    activity, a [loop] call in [LOAD_LIST], and LIST_START and LIST_ENTRY
    frames. *)
Definition mayChangeList (e : Event) (a : Activity) : bool :=
  match e with
  | Enter | Exit => true
  | Tick _ _ => match state a with LOAD_LIST => true | _ => false end
  | FrameReceived data =>
      isStatus BleStatus.LIST_START data || isStatus BleStatus.LIST_ENTRY data
  | PeerConnected | PeerDisconnected _ => false
  end.

(** The events that can change [currentMangaIndex]: entering the activity,
    a [loop] call in [BROWSING_LIST], and LIST_END frames. *)
Definition mayChangeCursor (e : Event) (a : Activity) : bool :=
  match e with
  | Enter => true
  | Tick _ _ => match state a with BROWSING_LIST => true | _ => false end
  | FrameReceived data => isStatus BleStatus.LIST_END data
  | Exit | PeerConnected | PeerDisconnected _ => false
  end.

(** ** Browsing *)

(** [z] is a value an [int] can hold. *)
Definition isInt (z : Z) : Prop := (INT_MIN <= z <= INT_MAX)%Z.

(** The cursor points at an entry of the list. *)
Definition cursorInRange (a : Activity) : Prop :=
  (0 <= currentMangaIndex a <= Z.of_nat (List.length (mangaList a)) - 1)%Z.

(** Neither Back nor Confirm is among the buttons pressed. *)
Definition staysInList (wasPressed : Button -> bool) : Prop :=
  wasPressed Back = false /\ wasPressed Confirm = false.

(** One [loop] call per element of [presses], with a peer connected. *)
Definition ticks (presses : list (Button -> bool)) : list Event :=
  map (Tick 1) presses.

(** [handleBrowsingList] called once per element of [presses], in order. *)
Definition browse (presses : list (Button -> bool)) (a : Activity) : Activity :=
  fold_left (fun acc wasPressed => handleBrowsingList wasPressed acc) presses a.

(** ** Sample frames and sessions *)

(** A LIST_ENTRY frame as the companion app builds it. *)
Definition entryFrame (mangaId mangaTitle : string) : list byte :=
  let i := list_byte_of_string mangaId in
  let t := list_byte_of_string mangaTitle in
  [BleStatus.LIST_ENTRY; uint8_of_size (List.length i)] ++ i
    ++ [uint8_of_size (List.length t)] ++ t.

Definition entryOf (mangaId mangaTitle : string) : MangaEntry :=
  mkMangaEntry (list_byte_of_string mangaId) (list_byte_of_string mangaTitle).

(** Enter with a peer already connected, ask for the list, receive two
    entries and the end of the list. *)
Definition listingSession : list Event :=
  [ Enter;
    Tick 1 noButton;
    Tick 1 noButton;
    FrameReceived [BleStatus.LIST_START];
    FrameReceived (entryFrame "1" "Title A");
    FrameReceived (entryFrame "2" "Title B");
    FrameReceived [BleStatus.LIST_END] ].

(** The activity [listingSession] ends in. *)
Definition browsingTwoEntries : Activity :=
  {| state := BROWSING_LIST;
     errorMessage := EmptyString;
     bleServer := true;
     kavitaService := true;
     cmdCharacteristic := true;
     dataCharacteristic := true;
     mangaList := [entryOf "1" "Title A"; entryOf "2" "Title B"];
     currentMangaIndex := 0%Z;
     effects :=
       [ StartAdvertising; RequestUpdate; RequestUpdate;
         Notify [BleCommand.REQUEST_LIST]; RequestUpdate; RequestUpdate ] |}.

(** The list is shown, the first entry is confirmed, the page is asked for. *)
Definition pageRequestSession : list Event :=
  listingSession ++ [ Tick 1 (press Confirm); Tick 1 noButton ].

(** The activity [pageRequestSession] ends in. *)
Definition receivingPage : Activity :=
  {| state := RECEIVING_PAGE;
     errorMessage := EmptyString;
     bleServer := true;
     kavitaService := true;
     cmdCharacteristic := true;
     dataCharacteristic := true;
     mangaList := [entryOf "1" "Title A"; entryOf "2" "Title B"];
     currentMangaIndex := 0%Z;
     effects :=
       [ StartAdvertising; RequestUpdate; RequestUpdate;
         Notify [BleCommand.REQUEST_LIST]; RequestUpdate; RequestUpdate;
         RequestUpdate;
         Notify [BleCommand.REQUEST_PAGE; x01; x31; x00; x00];
         RequestUpdate ] |}.

(** The peer drops out while the list is shown and comes back: the next
    [loop] call finds the activity in [LOAD_LIST] with the old list. *)
Definition reconnectSession : list Event :=
  listingSession ++ [ PeerDisconnected 0%Z; Tick 1 noButton ].

(** The activity [reconnectSession] ends in. *)
Definition reloadingOldList : Activity :=
  {| state := LOAD_LIST;
     errorMessage := EmptyString;
     bleServer := true;
     kavitaService := true;
     cmdCharacteristic := true;
     dataCharacteristic := true;
     mangaList := [entryOf "1" "Title A"; entryOf "2" "Title B"];
     currentMangaIndex := 0%Z;
     effects :=
       [ StartAdvertising; RequestUpdate; RequestUpdate;
         Notify [BleCommand.REQUEST_LIST]; RequestUpdate; RequestUpdate;
         RequestUpdate; RequestUpdate ] |}.

(** The peer reports an error while the list is shown. *)
Definition erroredSession : list Event :=
  listingSession ++ [ FrameReceived [BleStatus.ERROR] ].

(** The activity [erroredSession] ends in. *)
Definition peerReportedError : Activity :=
  {| state := ERROR;
     errorMessage := "Companion app error";
     bleServer := true;
     kavitaService := true;
     cmdCharacteristic := true;
     dataCharacteristic := true;
     mangaList := [entryOf "1" "Title A"; entryOf "2" "Title B"];
     currentMangaIndex := 0%Z;
     effects :=
       [ StartAdvertising; RequestUpdate; RequestUpdate;
         Notify [BleCommand.REQUEST_LIST]; RequestUpdate; RequestUpdate;
         RequestUpdate ] |}.

(** A valid selection in LOAD_PAGE with no data characteristic. *)
Definition selectedWithoutTransport : Activity :=
  {| state := LOAD_PAGE;
     errorMessage := EmptyString;
     bleServer := false;
     kavitaService := false;
     cmdCharacteristic := false;
     dataCharacteristic := false;
     mangaList := [entryOf "1" "Title A"];
     currentMangaIndex := 0%Z;
     effects := [] |}.

(** Two PAGE_DATA frames that together cover the bytes 0 to 149 of a page:
    100 bytes at offset 0 and 50 bytes at offset 100. *)
Definition pageChunkAt0 : list byte :=
  [BleStatus.PAGE_DATA; x00; x00; x00; x00] ++ repeat xaa 100.

Definition pageChunkAt100 : list byte :=
  [BleStatus.PAGE_DATA; x00; x00; x00; x64] ++ repeat xbb 50.

(** ** The frame handler with its reads of the frame made explicit *)

(** A computation that reads bytes of the received value.  Reading at an
    index the value does not have is a read outside the buffer and leaves
    the computation without a result; otherwise it returns its result
    together with the indices it read, in the order it read them. *)
Definition Reader (A : Type) : Type := list byte -> option (A * list nat).

Definition readRet {A : Type} (x : A) : Reader A :=
  fun _ => Some (x, []).

Definition readBind {A B : Type} (m : Reader A) (f : A -> Reader B)
  : Reader B :=
  fun data =>
    match m data with
    | Some (x, reads1) =>
        match f x data with
        | Some (y, reads2) => Some (y, reads1 ++ reads2)
        | None => None
        end
    | None => None
    end.

Notation "x <- m ;; k" := (readBind m (fun x => k))
  (at level 61, m at next level, right associativity).

(** [data[i]] *)
Definition readByte (i : nat) : Reader byte :=
  fun data =>
    match nth_error data i with
    | Some b => Some (b, [i])
    | None => None
    end.

(** [std::string(reinterpret_cast<const char*>(&data[off]), len)]: the
    [len] bytes from [off] on are read. *)
Definition readString (off len : nat) : Reader (list byte) :=
  fun data =>
    if off + len <=? List.length data
    then Some (substring data off len, seq off len)
    else None.

(** [RequestCallbacks::onWrite] once more, statement by statement, with
    every access to [data] going through [readByte] and [readString].
    [getLength()] is not a read of the buffer. *)
Definition onWriteReading (a : Activity) : Reader Activity :=
  fun data =>
    let length := List.length data in
    (if length =? 0 then readRet a
     else
       status <- readByte 0 ;;
       if Byte.eqb status BleStatus.LIST_START then
         readRet (set_mangaList [] a)
       else if Byte.eqb status BleStatus.LIST_ENTRY then
         if 3 <=? length then
           idLenByte <- readByte 1 ;;
           let idLen := Byte.to_nat idLenByte in
           if 2 + idLen + 1 <=? length then
             id <- readString 2 idLen ;;
             titleLenByte <- readByte (2 + idLen) ;;
             let titleLen := Byte.to_nat titleLenByte in
             if 2 + idLen + 1 + titleLen <=? length then
               title <- readString (2 + idLen + 1) titleLen ;;
               readRet
                 (set_mangaList (mangaList a ++ [mkMangaEntry id title]) a)
             else readRet a
           else readRet a
         else readRet a
       else if Byte.eqb status BleStatus.LIST_END then
         readRet
           (requestUpdate
              (set_state BROWSING_LIST
                 (set_currentMangaIndex
                    (match mangaList a with
                     | [] => (-1)%Z
                     | _ :: _ => 0%Z
                     end) a)))
       else if Byte.eqb status BleStatus.PAGE_START then
         readRet a
       else if Byte.eqb status BleStatus.PAGE_DATA then
         if 5 <? length then
           offset3 <- readByte 1 ;;
           offset2 <- readByte 2 ;;
           offset1 <- readByte 3 ;;
           offset0 <- readByte 4 ;;
           readRet a
         else readRet a
       else if Byte.eqb status BleStatus.PAGE_END then
         readRet (requestUpdate (set_state DISPLAY_PAGE a))
       else if Byte.eqb status BleStatus.ERROR then
         readRet
           (requestUpdate
              (set_state ERROR (set_errorMessage "Companion app error" a)))
       else readRet a) data.

(** The payload of a frame: what follows the status byte. *)
Definition payloadOf (data : list byte) : list byte := tl data.

(** [a'] has every member of [a] except, possibly, the list: the state, the
    error message, the four BLE members, the cursor and the effects so far
    are the same. *)
Definition otherMembersKept (a a' : Activity) : Prop :=
  state a' = state a
  /\ errorMessage a' = errorMessage a
  /\ bleServer a' = bleServer a
  /\ kavitaService a' = kavitaService a
  /\ cmdCharacteristic a' = cmdCharacteristic a
  /\ dataCharacteristic a' = dataCharacteristic a
  /\ currentMangaIndex a' = currentMangaIndex a
  /\ effects a' = effects a.

(** ** Frames as the companion app builds them *)

(** The layout [onWrite] documents for a LIST_ENTRY frame:
    [status][id_length][id...][title_length][title...]. *)
Definition encodeListEntry (mangaId mangaTitle : list byte) : list byte :=
  [BleStatus.LIST_ENTRY; uint8_of_size (List.length mangaId)] ++ mangaId
    ++ [uint8_of_size (List.length mangaTitle)] ++ mangaTitle.



(** ** What was sent to the peer *)

(** The values notified on the data characteristic, oldest first. *)
Fixpoint notified (es : list Effect) : list (list byte) :=
  match es with
  | [] => []
  | Notify value :: es' => value :: notified es'
  | _ :: es' => notified es'
  end.

(** The three texts the activity ever stores in [errorMessage]. *)
Definition isErrorText (m : string) : Prop :=
  m = "BLE not initialized"%string
  \/ m = "Invalid manga selection"%string
  \/ m = "Companion app error"%string.

(** One of the previous-page or next-page buttons is pressed. *)
Definition pageTurnPressed (wasPressed : Button -> bool) : bool :=
  wasPressed Left || wasPressed PageBack
  || wasPressed Right || wasPressed PageForward.

(** ** Rendering *)

(** [render] draws through the renderer, the theme and the input manager,
    none of which is part of the activity.  Each call it makes on them is
    recorded as a [DrawOp], in order; the screen size and the theme metrics
    it reads are parameters, all of them [int]s as the locals they are
    assigned to.  Arithmetic on [int]s wraps around as on the target.  A
    division the language leaves undefined, or a read of [mangaList]
    outside its bounds, leaves [render] without a result. *)

(** The fields of [UITheme::getInstance().getMetrics()] that [render] reads. *)
Record ThemeMetrics : Type := mkThemeMetrics {
  topPadding : Z;
  headerHeight : Z;
  verticalSpacing : Z;
  buttonHintsHeight : Z;
  listRowHeight : Z;
  contentSidePadding : Z
}.

Inductive FontId : Type := UI_10_FONT_ID | UI_12_FONT_ID.

(** [EpdFontFamily::REGULAR] and [EpdFontFamily::BOLD] *)
Inductive EpdFontFamily : Type := REGULAR | BOLD.

Inductive DrawOp : Type :=
| ClearScreen
    (* renderer.clearScreen() *)
| DrawCenteredText (font : FontId) (y : Z) (text : list byte) (black : bool)
    (style : EpdFontFamily)
    (* renderer.drawCenteredText(font, y, text, black, style) *)
| DrawHeader (x y width height : Z) (text : list byte)
    (* GUI.drawHeader(renderer, Rect{x, y, width, height}, text) *)
| FillRect (x y width height : Z) (black : bool)
    (* renderer.fillRect(x, y, width, height, black) *)
| DrawText (font : FontId) (x y : Z) (text : list byte) (black : bool)
    (style : EpdFontFamily)
    (* renderer.drawText(font, x, y, text, black, style) *)
| DrawButtonHints (label1 label2 label3 label4 : list byte)
    (* mappedInput.mapLabels(label1 .. label4), then GUI.drawButtonHints *)
| DisplayBuffer.
    (* renderer.displayBuffer() *)

Definition int_add (x y : Z) : Z := wrap_int (x + y).
Definition int_sub (x y : Z) : Z := wrap_int (x - y).
Definition int_mul (x y : Z) : Z := wrap_int (x * y).

(** [x / 2] *)
Definition int_half (x : Z) : Z := Z.quot x 2.

(** [x / y]: rounds towards zero; undefined for a zero divisor and for
    [INT_MIN / -1]. *)
Definition int_div (x y : Z) : option Z :=
  if ((y =? 0) || ((x =? INT_MIN) && (y =? -1)))%Z then None
  else Some (Z.quot x y).

(** A string literal as the bytes handed to the renderer. *)
Definition literal (s : string) : list byte := list_byte_of_string s.

(** [s.c_str()] as the renderer reads it: the bytes before the first NUL. *)
Fixpoint c_str (s : list byte) : list byte :=
  match s with
  | [] => []
  | b :: s' => if Byte.eqb b x00 then [] else b :: c_str s'
  end.

(** A number as ["%d"] and ["%zu"] print it. *)
Definition decimal (z : Z) : list byte :=
  list_byte_of_string (NilZero.string_of_int (Z.to_int z)).

(** [mangaList[index]] for an [int] index: a negative index, converted to
    [size_t], is past the end like any index not below the size. *)
Definition entryAt (index : Z) (a : Activity) : option MangaEntry :=
  if (index <? 0)%Z then None
  else nth_error (mangaList a) (Z.to_nat index).

(** [snprintf(indicator, sizeof(indicator), "%d / %zu", currentMangaIndex + 1,
    mangaList.size())] into a buffer of 32 bytes. *)
Definition indicatorText (a : Activity) : list byte :=
  firstn 31
    (decimal (int_add (currentMangaIndex a) 1) ++ literal " / "
       ++ decimal (Z.of_nat (List.length (mangaList a)))).

(** [std::max(0, currentMangaIndex - visibleItems / 2)] *)
Definition listOffsetOf (visibleItems : Z) (a : Activity) : Z :=
  Z.max 0 (int_sub (currentMangaIndex a) (int_half visibleItems)).

(** The body of the loop over the visible items, for one [i]. *)
Definition drawItem (pageWidth : Z) (metrics : ThemeMetrics)
  (contentY itemHeight listOffset i : Z) (a : Activity)
  : option (list DrawOp) :=
  let itemY := int_add contentY (int_mul i itemHeight) in
  let itemIndex := int_add listOffset i in
  let isSelected := (itemIndex =? currentMangaIndex a)%Z in
  match entryAt itemIndex a with
  | Some entry =>
      Some
        ((if isSelected
          then [FillRect (contentSidePadding metrics) itemY
                  (int_sub pageWidth (int_mul 2 (contentSidePadding metrics)))
                  (int_sub itemHeight 2) true]
          else [])
         ++ [DrawText UI_12_FONT_ID
               (int_add (contentSidePadding metrics) 5)
               (int_add itemY (int_half itemHeight))
               (c_str (title entry)) (negb isSelected) REGULAR])
  | None => None
  end.

(** [for (int i = ..; i < visibleItems && (listOffset + i) <
    static_cast<int>(mangaList.size()); i++)], from the current [i] on.
    [fuel] bounds the number of rounds; [visibleItems] rounds are all the
    loop can make. *)
Fixpoint drawItems (fuel : nat) (pageWidth : Z) (metrics : ThemeMetrics)
  (contentY itemHeight visibleItems listOffset i : Z) (a : Activity)
  : option (list DrawOp) :=
  match fuel with
  | O => Some []
  | S fuel' =>
      if ((i <? visibleItems) && (int_add listOffset i <? size_as_int a))%Z
      then
        match drawItem pageWidth metrics contentY itemHeight listOffset i a with
        | Some ops =>
            match drawItems fuel' pageWidth metrics contentY itemHeight
                    visibleItems listOffset (int_add i 1) a with
            | Some rest => Some (ops ++ rest)
            | None => None
            end
        | None => None
        end
      else Some []
  end.

(** [contentY] and [contentHeight] of the list screen. *)
Definition contentYOf (metrics : ThemeMetrics) : Z :=
  int_add (int_add (topPadding metrics) (headerHeight metrics))
          (verticalSpacing metrics).

Definition contentHeightOf (pageHeight : Z) (metrics : ThemeMetrics) : Z :=
  int_sub (int_sub pageHeight (contentYOf metrics))
          (buttonHintsHeight metrics).

(** The BROWSING_LIST case of [render]. *)
Definition renderList (pageWidth pageHeight : Z) (metrics : ThemeMetrics)
  (a : Activity) : option (list DrawOp) :=
  let header :=
    DrawHeader 0 (topPadding metrics) pageWidth (headerHeight metrics)
      (literal "Kavita Library") in
  let contentY := contentYOf metrics in
  let contentHeight := contentHeightOf pageHeight metrics in
  let itemHeight := listRowHeight metrics in
  match int_div contentHeight itemHeight with
  | None => None
  | Some visibleItems =>
      let hints :=
        DrawButtonHints (literal "Back") (literal "Select") (literal "Up")
          (literal "Down") in
      match mangaList a with
      | [] =>
          Some [header;
                DrawCenteredText UI_12_FONT_ID (int_half pageHeight)
                  (literal "No manga found") true REGULAR;
                hints]
      | _ :: _ =>
          let listOffset := listOffsetOf visibleItems a in
          match drawItems (Z.to_nat visibleItems) pageWidth metrics contentY
                  itemHeight visibleItems listOffset 0 a with
          | None => None
          | Some items =>
              Some
                ([header] ++ items
                 ++ (if 1 <? List.length (mangaList a)
                     then [DrawCenteredText UI_10_FONT_ID
                             (int_sub
                                (int_sub pageHeight (buttonHintsHeight metrics))
                                20)
                             (indicatorText a) true REGULAR]
                     else [])
                 ++ [hints])
          end
      end
  end.

(** The LOAD_PAGE and RECEIVING_PAGE case of [render]. *)
Definition renderLoadingPage (pageHeight : Z) (a : Activity)
  : option (list DrawOp) :=
  let heading :=
    DrawCenteredText UI_12_FONT_ID (int_sub (int_half pageHeight) 20)
      (literal "Loading Page") true BOLD in
  match mangaList a with
  | [] => Some [heading]
  | _ :: _ =>
      if (0 <=? currentMangaIndex a)%Z then
        match entryAt (currentMangaIndex a) a with
        | Some entry =>
            Some [heading;
                  DrawCenteredText UI_10_FONT_ID
                    (int_add (int_half pageHeight) 10)
                    (c_str (title entry)) true REGULAR]
        | None => None
        end
      else Some [heading]
  end.

Definition render (connectedCount : nat) (pageWidth pageHeight : Z)
  (metrics : ThemeMetrics) (a : Activity) : option (list DrawOp) :=
  let screen :=
    match state a with
    | CHECK_COMPANION_APP | WAITING_FOR_APP =>
        Some
          [DrawCenteredText UI_12_FONT_ID (int_sub (int_half pageHeight) 30)
             (literal "Kavita Manga Reader") true BOLD;
           DrawCenteredText UI_10_FONT_ID (int_half pageHeight)
             (literal "Waiting for companion app...") true REGULAR;
           if peerConnected connectedCount a
           then DrawCenteredText UI_10_FONT_ID
                  (int_add (int_half pageHeight) 30)
                  (literal "Connected!") true REGULAR
           else DrawCenteredText UI_10_FONT_ID
                  (int_add (int_half pageHeight) 30)
                  (literal "Advertising...") true REGULAR]
    | LOAD_LIST | RECEIVING_LIST =>
        Some
          [DrawCenteredText UI_12_FONT_ID (int_sub (int_half pageHeight) 20)
             (literal "Loading Library") true BOLD;
           DrawCenteredText UI_10_FONT_ID (int_add (int_half pageHeight) 10)
             (literal "Receiving manga list...") true REGULAR]
    | BROWSING_LIST => renderList pageWidth pageHeight metrics a
    | LOAD_PAGE | RECEIVING_PAGE => renderLoadingPage pageHeight a
    | DISPLAY_PAGE =>
        Some
          [DrawButtonHints (literal "Back") (literal "") (literal "Prev")
             (literal "Next")]
    | ERROR =>
        Some
          [DrawCenteredText UI_12_FONT_ID (int_sub (int_half pageHeight) 20)
             (literal "Error") true BOLD;
           DrawCenteredText UI_10_FONT_ID (int_add (int_half pageHeight) 10)
             (c_str (literal (errorMessage a))) true REGULAR;
           DrawButtonHints (literal "Back") (literal "") (literal "")
             (literal "")]
    end in
  match screen with
  | Some ops => Some ([ClearScreen] ++ ops ++ [DisplayBuffer])
  | None => None
  end.

(** *** Reading a list of drawing calls *)

(** Text and colour of every [DrawText], in order. *)
Fixpoint drawnRows (ops : list DrawOp) : list (list byte * bool) :=
  match ops with
  | [] => []
  | DrawText _ _ _ text black _ :: ops' => (text, black) :: drawnRows ops'
  | _ :: ops' => drawnRows ops'
  end.

(** The number of [FillRect] calls. *)
Fixpoint highlights (ops : list DrawOp) : nat :=
  match ops with
  | [] => 0
  | FillRect _ _ _ _ _ :: ops' => S (highlights ops')
  | _ :: ops' => highlights ops'
  end.

(** The row of entry number [k]: its title, drawn in black unless [k] is
    where the cursor is. *)
Definition rowOf (a : Activity) (k : nat) : list byte * bool :=
  (c_str (title (nth k (mangaList a) (mkMangaEntry [] []))),
   negb (Z.of_nat k =? currentMangaIndex a)%Z).

(** The number of rows of the list screen. *)
Definition rowCount (visibleItems : Z) (a : Activity) : nat :=
  Z.to_nat (Z.min visibleItems (size_as_int a - listOffsetOf visibleItems a)).

(** After a page was asked for on entry number 1: the list shown, Down,
    Confirm, and the request. *)
Definition secondPageSession : list Event :=
  listingSession
    ++ [ Tick 1 (press Down); Tick 1 (press Confirm); Tick 1 noButton ].

(** * Properties *)

(** ** Arithmetic and list helpers *)

Lemma wrap_int_small (z : Z) :
  (INT_MIN <= z <= INT_MAX)%Z -> wrap_int z = z.
Proof.
  unfold INT_MIN, INT_MAX, wrap_int. intros Hz.
  rewrite Z.mod_small; lia.
Qed.

Lemma substring_length (data : list byte) (off len : nat) :
  off + len <= List.length data -> List.length (substring data off len) = len.
Proof.
  intros H. unfold substring.
  rewrite List.length_firstn, List.length_skipn. lia.
Qed.

Lemma substring_nth_error (data : list byte) (off len i : nat) :
  i < len ->
  nth_error (substring data off len) i = nth_error data (off + i).
Proof.
  intros H. unfold substring.
  rewrite nth_error_firstn, nth_error_skipn.
  apply Nat.ltb_lt in H. now rewrite H.
Qed.

Lemma byteAt_nth_error (data : list byte) (i : nat) (b : byte) :
  nth_error data i = Some b -> byteAt data i = Byte.to_nat b.
Proof.
  intros H. unfold byteAt. now rewrite (nth_error_nth _ _ _ H).
Qed.

Lemma nth_error_in_range (data : list byte) (i : nat) :
  i < List.length data -> exists b, nth_error data i = Some b.
Proof.
  intros H. exists (nth i data x00). now apply nth_error_nth'.
Qed.

Lemma notified_app (es1 es2 : list Effect) :
  notified (es1 ++ es2) = notified es1 ++ notified es2.
Proof.
  induction es1 as [|e es1 IH]; cbn; [ reflexivity | ].
  destruct e; cbn; now rewrite IH.
Qed.

(** Case analysis on every boolean test left in the goal. *)
Ltac case_ifs :=
  cbv iota;
  repeat match goal with
         | |- context [if ?c then _ else _] =>
             lazymatch c with
             | true => fail
             | false => fail
             | _ => match type of c with bool => destruct c eqn:? end
             end
         end.

(** ** The frame handler, tag by tag *)

Lemma onWrite_cons (b : byte) (rest : list byte) (a : Activity) :
  onWrite (b :: rest) a =
  let data := b :: rest in
  let length := S (List.length rest) in
  if Byte.eqb b BleStatus.LIST_START then
    set_mangaList [] a
  else if Byte.eqb b BleStatus.LIST_ENTRY then
    if 3 <=? length then
      let idLen := byteAt data 1 in
      if 2 + idLen + 1 <=? length then
        let titleLen := byteAt data (2 + idLen) in
        if 2 + idLen + 1 + titleLen <=? length then
          set_mangaList
            (mangaList a ++
               [mkMangaEntry (substring data 2 idLen)
                             (substring data (2 + idLen + 1) titleLen)]) a
        else a
      else a
    else a
  else if Byte.eqb b BleStatus.LIST_END then
    requestUpdate
      (set_state BROWSING_LIST
         (set_currentMangaIndex
            (match mangaList a with [] => (-1)%Z | _ :: _ => 0%Z end) a))
  else if Byte.eqb b BleStatus.PAGE_START then a
  else if Byte.eqb b BleStatus.PAGE_DATA then a
  else if Byte.eqb b BleStatus.PAGE_END then
    requestUpdate (set_state DISPLAY_PAGE a)
  else if Byte.eqb b BleStatus.ERROR then
    requestUpdate
      (set_state ERROR (set_errorMessage "Companion app error" a))
  else a.
Proof.
  unfold onWrite. cbv zeta.
  change (List.length (b :: rest) =? 0) with false. cbv iota.
  change (nth 0 (b :: rest) x00) with b.
  destruct (5 <? List.length (b :: rest)); reflexivity.
Qed.

Lemma onWrite_LIST_ENTRY (rest : list byte) (a : Activity) :
  onWrite (BleStatus.LIST_ENTRY :: rest) a =
  let data := BleStatus.LIST_ENTRY :: rest in
  let idLen := byteAt data 1 in
  let titleLen := byteAt data (2 + idLen) in
  if (3 <=? List.length data)
     && (2 + idLen + 1 <=? List.length data)
     && (2 + idLen + 1 + titleLen <=? List.length data)
  then
    set_mangaList
      (mangaList a ++
         [mkMangaEntry (substring data 2 idLen)
                       (substring data (2 + idLen + 1) titleLen)]) a
  else a.
Proof.
  rewrite onWrite_cons. cbv zeta.
  change (Byte.eqb BleStatus.LIST_ENTRY BleStatus.LIST_START) with false.
  change (Byte.eqb BleStatus.LIST_ENTRY BleStatus.LIST_ENTRY) with true.
  cbv iota.
  change (S (List.length rest)) with (List.length (BleStatus.LIST_ENTRY :: rest)).
  destruct (3 <=? _); [ | reflexivity ].
  destruct (2 + _ + 1 <=? _); [ | reflexivity ].
  destruct (2 + _ + 1 + _ <=? _); reflexivity.
Qed.

(** ** The reads of the frame handler *)

Lemma readByte_in_range (data : list byte) (i : nat) :
  i < List.length data ->
  readByte i data = Some (nth i data x00, [i]).
Proof.
  intros H. unfold readByte. now rewrite (nth_error_nth' data x00 H).
Qed.

Lemma readString_in_range (data : list byte) (off len : nat) :
  off + len <= List.length data ->
  readString off len data = Some (substring data off len, seq off len).
Proof.
  intros H. unfold readString.
  now replace (off + len <=? List.length data) with true
    by (symmetry; now apply Nat.leb_le).
Qed.

Lemma Forall_lt_seq (n off len : nat) :
  off + len <= n -> Forall (fun i => i < n) (seq off len).
Proof.
  intros H. apply Forall_forall. intros i Hi. apply in_seq in Hi. lia.
Qed.

Ltac reads_in_range :=
  cbn [app readRet];
  repeat first
    [ apply Forall_nil
    | apply Forall_cons; [ lia | ]
    | apply Forall_app; split; [ apply Forall_lt_seq; lia | ] ].

(** Whatever the frame, every read of the handler is inside the frame, and
    what the handler makes of the bytes it reads is what [onWrite] says. *)
Lemma onWriteReading_onWrite (data : list byte) (a : Activity) :
  exists reads : list nat,
    onWriteReading a data = Some (onWrite data a, reads)
    /\ Forall (fun i => i < List.length data) reads.
Proof.
  destruct data as [|b rest].
  - exists []. split; [ reflexivity | constructor ].
  - rewrite onWrite_cons. cbv zeta.
    unfold onWriteReading. cbv zeta.
    change (List.length (b :: rest) =? 0) with false. cbv iota.
    unfold readBind at 1. cbn [readByte nth_error].
    set (data := b :: rest).
    change (S (List.length rest)) with (List.length data).
    assert (Hlen : List.length data = S (List.length rest)) by reflexivity.
    destruct (Byte.eqb b BleStatus.LIST_START);
      [ eexists; split; [ reflexivity | reads_in_range ] | ].
    destruct (Byte.eqb b BleStatus.LIST_ENTRY).
    { destruct (3 <=? List.length data) eqn:E3;
        [ | eexists; split; [ reflexivity | reads_in_range ] ].
      apply Nat.leb_le in E3.
      unfold readBind at 1. rewrite readByte_in_range by lia.
      fold (byteAt data 1).
      destruct (2 + byteAt data 1 + 1 <=? List.length data) eqn:E4;
        [ | eexists; split;
            [ reflexivity | reads_in_range ] ].
      apply Nat.leb_le in E4.
      unfold readBind at 1. rewrite readString_in_range by lia.
      unfold readBind at 1. rewrite readByte_in_range by lia.
      fold (byteAt data (2 + byteAt data 1)).
      destruct (2 + byteAt data 1 + 1 + byteAt data (2 + byteAt data 1)
                <=? List.length data) eqn:E5.
      - apply Nat.leb_le in E5.
        unfold readBind at 1. rewrite readString_in_range by lia.
        eexists. split; [ reflexivity | ]. reads_in_range.
      - eexists. split; [ reflexivity | ]. reads_in_range. }
    destruct (Byte.eqb b BleStatus.LIST_END);
      [ eexists; split; [ reflexivity | reads_in_range ] | ].
    destruct (Byte.eqb b BleStatus.PAGE_START);
      [ eexists; split; [ reflexivity | reads_in_range ] | ].
    destruct (Byte.eqb b BleStatus.PAGE_DATA).
    { destruct (5 <? List.length data) eqn:E5;
        [ | eexists; split;
            [ reflexivity | reads_in_range ] ].
      apply Nat.ltb_lt in E5.
      unfold readBind. rewrite !readByte_in_range by lia.
      eexists. split; [ reflexivity | ].
      reads_in_range. }
    destruct (Byte.eqb b BleStatus.PAGE_END);
      [ eexists; split; [ reflexivity | reads_in_range ] | ].
    destruct (Byte.eqb b BleStatus.ERROR);
      eexists; (split; [ reflexivity | reads_in_range ]).
Qed.

(** ** LIST_ENTRY decoding *)

Lemma payloadOf_length (data : list byte) (b : byte) :
  statusOf data = Some b ->
  List.length data = 1 + List.length (payloadOf data).
Proof.
  destruct data as [|b' rest]; [ discriminate | reflexivity ].
Qed.

Lemma payloadOf_nth_error (data : list byte) (b : byte) :
  statusOf data = Some b ->
  forall i : nat, nth_error (payloadOf data) i = nth_error data (1 + i).
Proof.
  destruct data as [|b' rest]; [ discriminate | reflexivity ].
Qed.

Lemma set_mangaList_otherMembersKept (l : list MangaEntry) (a : Activity) :
  otherMembersKept a (set_mangaList l a).
Proof.
  unfold otherMembersKept. cbn. auto 10.
Qed.

(** What [onWrite] does with a LIST_ENTRY frame, in terms of the frame with
    its status byte. *)
Lemma list_entry_decoding_aux (a : Activity) (data : list byte)
  (L1 L2 : nat) :
  statusOf data = Some BleStatus.LIST_ENTRY ->
  (forall b, nth_error data 1 = Some b -> Byte.to_nat b = L1) ->
  (forall b, nth_error data (2 + L1) = Some b -> Byte.to_nat b = L2) ->
  (2 + L1 + 1 + L2 <= List.length data ->
   onWrite data a
   = set_mangaList
       (mangaList a ++
          [mkMangaEntry (substring data 2 L1)
                        (substring data (2 + L1 + 1) L2)]) a)
  /\ (List.length data < 2 + L1 + 1 + L2 -> onWrite data a = a).
Proof.
  intros Htag HL1 HL2.
  destruct data as [|b rest]; [ discriminate | ].
  injection Htag as ->.
  rewrite onWrite_LIST_ENTRY. cbv zeta.
  set (data := BleStatus.LIST_ENTRY :: rest) in *.
  split.
  - intros Hlen.
    destruct (nth_error_in_range data 1) as [b1 Hb1]; [ lia | ].
    rewrite (byteAt_nth_error _ _ _ Hb1), (HL1 _ Hb1).
    destruct (nth_error_in_range data (2 + L1)) as [b2 Hb2]; [ lia | ].
    rewrite (byteAt_nth_error _ _ _ Hb2), (HL2 _ Hb2).
    replace (3 <=? List.length data) with true
      by (symmetry; apply Nat.leb_le; lia).
    replace (2 + L1 + 1 <=? List.length data) with true
      by (symmetry; apply Nat.leb_le; lia).
    replace (2 + L1 + 1 + L2 <=? List.length data) with true
      by (symmetry; apply Nat.leb_le; lia).
    reflexivity.
  - intros Hshort.
    destruct (3 <=? List.length data) eqn:E3; [ | reflexivity ].
    apply Nat.leb_le in E3.
    destruct (nth_error_in_range data 1) as [b1 Hb1]; [ lia | ].
    rewrite (byteAt_nth_error _ _ _ Hb1), (HL1 _ Hb1).
    destruct (2 + L1 + 1 <=? List.length data) eqn:E4; [ | reflexivity ].
    apply Nat.leb_le in E4.
    destruct (nth_error_in_range data (2 + L1)) as [b2 Hb2]; [ lia | ].
    rewrite (byteAt_nth_error _ _ _ Hb2), (HL2 _ Hb2).
    replace (2 + L1 + 1 + L2 <=? List.length data) with false
      by (symmetry; apply Nat.leb_gt; lia).
    reflexivity.
Qed.

(** C1, as amended.  The payload of a LIST_ENTRY frame is what follows the
    status byte: the id-length byte [L1], the id, the title-length byte [L2]
    and the title.  The handler compares [2 + L1 + 1 + L2] with the length of
    the frame, status byte included, which is one more than the length of
    the payload.  So when the payload holds at least [1 + L1 + 1 + L2] bytes
    the list afterwards is the list before with exactly one entry added at
    its end, whose id is the [L1] bytes after the id-length byte and whose
    title is the [L2] bytes after the title-length byte, and no other member
    of the activity changes; when the payload is shorter the handler leaves
    the activity as it found it, the list and its size included.  [L1] and
    [L2] are the payload bytes at positions [0] and [1 + L1] whenever the
    payload is long enough to have them. *)
Theorem list_entry_decoding :
  forall (a : Activity) (data : list byte) (L1 L2 : nat),
    statusOf data = Some BleStatus.LIST_ENTRY ->
    (forall b, nth_error (payloadOf data) 0 = Some b -> Byte.to_nat b = L1) ->
    (forall b,
        nth_error (payloadOf data) (1 + L1) = Some b -> Byte.to_nat b = L2) ->
    List.length data = 1 + List.length (payloadOf data)
    /\ (1 + L1 + 1 + L2 <= List.length (payloadOf data) ->
        exists e : MangaEntry,
          mangaList (onWrite data a) = mangaList a ++ [e]
          /\ List.length (mangaList (onWrite data a))
             = S (List.length (mangaList a))
          /\ List.length (id e) = L1
          /\ (forall i, i < L1 ->
                nth_error (id e) i = nth_error (payloadOf data) (1 + i))
          /\ List.length (title e) = L2
          /\ (forall i, i < L2 ->
                nth_error (title e) i
                = nth_error (payloadOf data) (1 + L1 + 1 + i))
          /\ otherMembersKept a (onWrite data a))
    /\ (List.length (payloadOf data) < 1 + L1 + 1 + L2 ->
        onWrite data a = a
        /\ mangaList (onWrite data a) = mangaList a
        /\ List.length (mangaList (onWrite data a))
           = List.length (mangaList a)).
Proof.
  intros a data L1 L2 Htag HL1 HL2.
  assert (Hlen := payloadOf_length data _ Htag).
  assert (Hnth := payloadOf_nth_error data _ Htag).
  destruct (list_entry_decoding_aux a data L1 L2 Htag) as [Hlong Hshort].
  { intros b Hb. apply HL1. now rewrite Hnth. }
  { intros b Hb. apply HL2. now rewrite Hnth. }
  split; [ exact Hlen | ]. split.
  - intros Hp. rewrite Hlong by lia.
    eexists. split; [ reflexivity | ].
    cbn [mangaList set_mangaList id title].
    split; [ rewrite List.length_app; cbn [List.length]; lia | ].
    split; [ apply substring_length; lia | ].
    split.
    { intros i Hi. rewrite Hnth.
      now apply (substring_nth_error data 2 L1 i). }
    split; [ apply substring_length; lia | ].
    split.
    { intros i Hi. rewrite Hnth.
      replace (1 + (1 + L1 + 1 + i)) with (2 + L1 + 1 + i) by lia.
      now apply (substring_nth_error data (2 + L1 + 1) L2 i). }
    apply set_mangaList_otherMembersKept.
  - intros Hp. rewrite Hshort by lia. auto.
Qed.

Lemma list_entry_decoding_witness :
  (exists e : MangaEntry,
      mangaList (onWrite (entryFrame "1" "Title A") constructed)
      = mangaList constructed ++ [e]
      /\ List.length (id e) = 1
      /\ nth_error (id e) 0 = Some x31
      /\ List.length (title e) = 7
      /\ nth_error (title e) 6 = Some x41)
  /\ onWrite (firstn 10 (entryFrame "1" "Title A")) constructed = constructed.
Proof.
  split.
  - destruct (list_entry_decoding constructed (entryFrame "1" "Title A") 1 7)
      as [_ [Hlong _]].
    + reflexivity.
    + intros b H. vm_compute in H. injection H as <-. reflexivity.
    + intros b H. vm_compute in H. injection H as <-. reflexivity.
    + destruct Hlong as [e [Happ [_ [Hid [Hidb [Htitle [Htitleb _]]]]]]].
      * vm_compute. lia.
      * exists e. repeat split; try assumption.
        -- rewrite (Hidb 0) by lia. reflexivity.
        -- rewrite (Htitleb 6) by lia. reflexivity.
  - apply (list_entry_decoding constructed
             (firstn 10 (entryFrame "1" "Title A")) 1 7).
    + reflexivity.
    + intros b H. vm_compute in H. injection H as <-. reflexivity.
    + intros b H. vm_compute in H. injection H as <-. reflexivity.
    + vm_compute. lia.
Defined.

(** C1, counterexample.  The frame of the entry with id "1" and title
    "Title A" declares [L1 = 1] and [L2 = 7]; its payload has 10 bytes, fewer
    than [2 + L1 + 1 + L2 = 11], and yet the handler appends the entry and
    the list grows.  So it is not so that every payload shorter than
    [2 + L1 + 1 + L2] leaves the size of the list unchanged. *)
Lemma payload_one_byte_short_is_appended :
  statusOf (entryFrame "1" "Title A") = Some BleStatus.LIST_ENTRY
  /\ nth_error (payloadOf (entryFrame "1" "Title A")) 0 = Some x01
  /\ nth_error (payloadOf (entryFrame "1" "Title A")) (1 + 1) = Some x07
  /\ List.length (payloadOf (entryFrame "1" "Title A")) = 10
  /\ 10 < 2 + 1 + 1 + 7
  /\ mangaList (onWrite (entryFrame "1" "Title A") constructed)
     = [entryOf "1" "Title A"]
  /\ List.length (mangaList constructed) = 0
  /\ ~ (forall (a : Activity) (data : list byte) (L1 L2 : nat),
          statusOf data = Some BleStatus.LIST_ENTRY ->
          nth_error (payloadOf data) 0 = Some (uint8_of_size L1) ->
          nth_error (payloadOf data) (1 + L1) = Some (uint8_of_size L2) ->
          L1 <= 255 -> L2 <= 255 ->
          List.length (payloadOf data) < 2 + L1 + 1 + L2 ->
          List.length (mangaList (onWrite data a))
          = List.length (mangaList a)).
Proof.
  repeat (split; [ first [ reflexivity | vm_compute; lia ] | ]).
  intros H.
  specialize (H constructed (entryFrame "1" "Title A") 1 7).
  vm_compute in H.
  assert (E : 1 = 0); [ | discriminate E ].
  apply H; first [ reflexivity | lia ].
Qed.

(** The sessions of the previous section end where their definitions say. *)
Lemma listingSession_result :
  run listingSession constructed = Some browsingTwoEntries.
Proof. reflexivity. Qed.

Lemma run_reachable (es : list Event) (a a' : Activity) :
  reachable a -> run es a = Some a' -> reachable a'.
Proof.
  revert a. induction es as [|e es IH]; intros a Ha Hrun; cbn [run] in Hrun.
  - now injection Hrun as <-.
  - destruct (step e a) as [a1|] eqn:E; [ | discriminate ].
    apply (IH a1); [ | assumption ].
    now apply (reachable_step a a1 e).
Qed.

(** C2. A LIST_END frame puts the activity in BROWSING_LIST and leaves the
    list as it is; the cursor becomes 0 when the list holds at least one
    entry and -1 when it holds none. *)
Theorem list_end_sets_cursor_and_state :
  forall (a : Activity) (rest : list byte),
    let a' := onWrite (BleStatus.LIST_END :: rest) a in
    state a' = BROWSING_LIST
    /\ mangaList a' = mangaList a
    /\ (1 <= List.length (mangaList a) -> currentMangaIndex a' = 0%Z)
    /\ (List.length (mangaList a) = 0 -> currentMangaIndex a' = (-1)%Z).
Proof.
  intros a rest a'. subst a'. rewrite onWrite_cons.
  cbn. repeat split.
  - destruct (mangaList a); cbn; [ lia | reflexivity ].
  - destruct (mangaList a); cbn; [ reflexivity | discriminate ].
Qed.

Lemma list_end_sets_cursor_and_state_witness :
  currentMangaIndex (onWrite [BleStatus.LIST_END] browsingTwoEntries) = 0%Z
  /\ currentMangaIndex (onWrite [BleStatus.LIST_END] constructed) = (-1)%Z.
Proof.
  split.
  - apply (list_end_sets_cursor_and_state browsingTwoEntries []).
    cbn. lia.
  - apply (list_end_sets_cursor_and_state constructed []).
    reflexivity.
Defined.

(** C7. When the peer disconnects the activity goes to WAITING_FOR_APP,
    whatever state it was in, and keeps its list and its cursor. *)
Theorem disconnect_keeps_list_and_cursor :
  forall (a : Activity) (reason : Z),
    let a' := onDisconnect reason a in
    state a' = WAITING_FOR_APP
    /\ mangaList a' = mangaList a
    /\ currentMangaIndex a' = currentMangaIndex a.
Proof.
  intros a reason a'. subst a'. unfold onDisconnect. cbn. auto.
Qed.

(** C10. A frame of length zero is returned from at once, by the test of
    [length == 0] at the top of the handler: the handler reads no byte of
    the frame, neither the status byte nor any payload byte (the list of
    the positions it read is empty, and a read of position 0 would have
    been a read outside the frame), and the activity it leaves behind is
    the one it found, in every member (state, list, cursor and error
    message among them) and with no effect emitted. *)
Theorem empty_frame_changes_nothing :
  forall a : Activity,
    onWriteReading a [] = Some (a, [])
    /\ readByte 0 [] = None
    /\ onWrite [] a = a
    /\ state (onWrite [] a) = state a
    /\ mangaList (onWrite [] a) = mangaList a
    /\ currentMangaIndex (onWrite [] a) = currentMangaIndex a
    /\ errorMessage (onWrite [] a) = errorMessage a
    /\ effects (onWrite [] a) = effects a.
Proof.
  intros a. repeat split.
Qed.

(** C5. A PAGE_DATA frame is decoded and dropped: whatever offset and chunk
    it carries, the handler leaves every member of the activity as it was,
    so no byte of the chunk is kept anywhere.  The two chunks covering the
    bytes 0 to 149 are decoded with their offsets 0 and 100, and in either
    order of arrival the activity afterwards is the activity before. *)
Theorem page_data_chunk_is_dropped :
  forall (a : Activity) (payload : list byte),
    onWrite (BleStatus.PAGE_DATA :: payload) a = a
    /\ chunkOffset pageChunkAt0 = 0%Z
    /\ chunkOffset pageChunkAt100 = 100%Z
    /\ onWrite pageChunkAt0 (onWrite pageChunkAt100 a) = a
    /\ onWrite pageChunkAt100 (onWrite pageChunkAt0 a) = a.
Proof.
  intros a payload.
  assert (Hdrop : forall p b, onWrite (BleStatus.PAGE_DATA :: p) b = b)
    by (intros p b; rewrite onWrite_cons; reflexivity).
  split; [ apply Hdrop | ].
  split; [ reflexivity | ].
  split; [ reflexivity | ].
  unfold pageChunkAt0, pageChunkAt100. cbn [app].
  split; now rewrite !Hdrop.
Qed.

(** ** The cursor under Up and Down *)

Lemma wrap_int_isInt (z : Z) : isInt (wrap_int z).
Proof.
  unfold isInt, INT_MIN, INT_MAX, wrap_int.
  assert (H := Z.mod_pos_bound (z + 2 ^ 31) (2 ^ 32)). lia.
Qed.

(** The last index as [handleBrowsingList] computes it,
    [static_cast<int>(mangaList.size()) - 1], never lies past the last
    entry, however long the list. *)
Lemma last_index_le (n : Z) :
  (1 <= n)%Z -> (wrap_int (wrap_int n - 1) <= n - 1)%Z.
Proof.
  intros Hn. unfold wrap_int.
  change (2 ^ 31)%Z with 2147483648%Z.
  change (2 ^ 32)%Z with 4294967296%Z.
  Z.div_mod_to_equations. lia.
Qed.

Section CursorRange.

Variable a : Activity.
Variable wasPressed : Button -> bool.
Hypothesis Hint : isInt (currentMangaIndex a).
Hypothesis Hrange : cursorInRange a.

Lemma browseUp_range :
  mangaList (browseUp wasPressed a) = mangaList a
  /\ isInt (currentMangaIndex (browseUp wasPressed a))
  /\ cursorInRange (browseUp wasPressed a).
Proof.
  unfold browseUp.
  destruct (wasPressed Up); [ | auto ].
  destruct (0 <? currentMangaIndex a)%Z eqn:E; [ | auto ].
  apply Z.ltb_lt in E.
  unfold cursorInRange, isInt, INT_MIN, INT_MAX in *. cbn.
  rewrite wrap_int_small; unfold INT_MIN, INT_MAX; repeat split; lia.
Qed.

Lemma browseDown_range :
  mangaList (browseDown wasPressed a) = mangaList a
  /\ isInt (currentMangaIndex (browseDown wasPressed a))
  /\ cursorInRange (browseDown wasPressed a).
Proof.
  unfold browseDown.
  destruct (wasPressed Down); [ | auto ].
  destruct (currentMangaIndex a <? _)%Z eqn:E; [ | auto ].
  apply Z.ltb_lt in E. unfold size_as_int in E.
  assert (Hlast := last_index_le (Z.of_nat (List.length (mangaList a)))).
  assert (Hint' := wrap_int_isInt
                     (wrap_int (Z.of_nat (List.length (mangaList a))) - 1)).
  unfold cursorInRange, isInt, INT_MIN, INT_MAX in *. cbn.
  rewrite wrap_int_small; unfold INT_MIN, INT_MAX; repeat split; lia.
Qed.

Lemma browseConfirm_range :
  mangaList (browseConfirm wasPressed a) = mangaList a
  /\ isInt (currentMangaIndex (browseConfirm wasPressed a))
  /\ cursorInRange (browseConfirm wasPressed a).
Proof.
  unfold browseConfirm.
  destruct (wasPressed Confirm); [ | auto ].
  destruct (selectionValid a); auto.
Qed.

End CursorRange.

Lemma handleBrowsingList_range (wasPressed : Button -> bool) (a : Activity) :
  isInt (currentMangaIndex a) ->
  cursorInRange a ->
  mangaList (handleBrowsingList wasPressed a) = mangaList a
  /\ isInt (currentMangaIndex (handleBrowsingList wasPressed a))
  /\ cursorInRange (handleBrowsingList wasPressed a).
Proof.
  intros Hint Hrange. unfold handleBrowsingList.
  destruct (wasPressed Back); [ auto | ].
  destruct (browseUp_range a wasPressed Hint Hrange) as [L1 [I1 R1]].
  destruct (browseDown_range _ wasPressed I1 R1) as [L2 [I2 R2]].
  destruct (browseConfirm_range _ wasPressed I2 R2) as [L3 [I3 R3]].
  split; [ congruence | auto ].
Qed.

(** In BROWSING_LIST, [loop] calls that find neither Back nor Confirm
    pressed are [handleBrowsingList] calls, one after the other, and the
    activity stays in BROWSING_LIST. *)
Lemma browse_is_loop_in_BROWSING_LIST :
  forall (presses : list (Button -> bool)) (a : Activity),
    state a = BROWSING_LIST ->
    Forall staysInList presses ->
    run (ticks presses) a = Some (browse presses a)
    /\ state (browse presses a) = BROWSING_LIST.
Proof.
  unfold ticks, browse.
  induction presses as [|p presses IH]; intros a Hs Hp.
  - now split.
  - inversion Hp as [|p' ps' [Hback Hconfirm] Hrest]; subst.
    cbn [map run step fold_left]. unfold loop. rewrite Hs.
    apply IH; [ | exact Hrest ].
    unfold handleBrowsingList, browseConfirm, browseDown, browseUp.
    rewrite Hback, Hconfirm. case_ifs; exact Hs.
Qed.

(** Any number of [handleBrowsingList] calls keeps the list and keeps the
    cursor on one of its entries. *)
Lemma browse_range (presses : list (Button -> bool)) (a : Activity) :
  isInt (currentMangaIndex a) ->
  cursorInRange a ->
  mangaList (browse presses a) = mangaList a
  /\ cursorInRange (browse presses a).
Proof.
  unfold browse. revert a.
  induction presses as [|p presses IH]; intros a Hint Hrange.
  - now split.
  - cbn [fold_left].
    destruct (handleBrowsingList_range p a Hint Hrange) as [L [I R]].
    destruct (IH (handleBrowsingList p a) I R) as [L' R'].
    split; [ congruence | assumption ].
Qed.

(** C4. With a non-empty list and the cursor on one of its entries, any
    number of [handleBrowsingList] calls, whatever buttons each of them
    finds pressed, leaves the list as it is and the cursor on one of its
    entries: Up never takes it below 0 and Down never past the last entry.
    These calls are what [loop] does in BROWSING_LIST: as long as neither
    Back nor Confirm is pressed the activity stays in BROWSING_LIST and one
    [loop] call is one [handleBrowsingList] call.  The cursor, an [int]
    member, starts as a value an [int] can hold. *)
Theorem cursor_stays_in_range :
  forall (presses : list (Button -> bool)) (a : Activity),
    mangaList a <> [] ->
    isInt (currentMangaIndex a) ->
    cursorInRange a ->
    (mangaList (browse presses a) = mangaList a
     /\ cursorInRange (browse presses a))
    /\ (state a = BROWSING_LIST ->
        Forall staysInList presses ->
        run (ticks presses) a = Some (browse presses a)
        /\ state (browse presses a) = BROWSING_LIST).
Proof.
  intros presses a _ Hint Hrange. split.
  - now apply browse_range.
  - now apply browse_is_loop_in_BROWSING_LIST.
Qed.

Lemma cursor_stays_in_range_witness :
  cursorInRange
    (browse [press Down; press Down; press Down; press Up; press Up; press Up]
            browsingTwoEntries)
  /\ run (ticks [press Down; press Down; press Down;
                 press Up; press Up; press Up]) browsingTwoEntries
     = Some (browse [press Down; press Down; press Down;
                     press Up; press Up; press Up] browsingTwoEntries).
Proof.
  destruct (cursor_stays_in_range
              [press Down; press Down; press Down; press Up; press Up; press Up]
              browsingTwoEntries) as [[_ Hrange] Hloop].
  - discriminate.
  - vm_compute. split; discriminate.
  - vm_compute. split; discriminate.
  - split; [ exact Hrange | ].
    apply Hloop; [ reflexivity | ].
    repeat constructor.
Defined.

(** Down from the first of two entries moves to the second; Down again
    stays there; Up at the first entry stays there. *)
Lemma down_is_clamped :
  currentMangaIndex (browse [press Down] browsingTwoEntries) = 1%Z
  /\ currentMangaIndex (browse [press Down; press Down] browsingTwoEntries)
     = 1%Z
  /\ currentMangaIndex (browse [press Up] browsingTwoEntries) = 0%Z.
Proof. repeat split. Qed.

(** ** Transitions *)

Lemma selectionValid_negb (a : Activity) :
  ((currentMangaIndex a <? 0) || (size_as_int a <=? currentMangaIndex a))%Z
  = negb (selectionValid a).
Proof.
  unfold selectionValid.
  destruct (Z.ltb_spec (currentMangaIndex a) 0),
           (Z.leb_spec (size_as_int a) (currentMangaIndex a)),
           (Z.leb_spec 0 (currentMangaIndex a)),
           (Z.ltb_spec (currentMangaIndex a) (size_as_int a));
    cbn; try reflexivity; lia.
Qed.

(** The state a frame leaves behind depends on its status byte alone. *)
Lemma onWrite_state (b : byte) (rest : list byte) (a : Activity) :
  state (onWrite (b :: rest) a) =
  match b with
  | x12 => BROWSING_LIST
  | x22 => DISPLAY_PAGE
  | x01 => ERROR
  | _ => state a
  end.
Proof.
  destruct (Byte.eqb b BleStatus.LIST_ENTRY) eqn:E.
  - apply Byte.byte_dec_bl in E. subst b.
    rewrite onWrite_LIST_ENTRY. cbv zeta.
    destruct (_ && _ && _); reflexivity.
  - rewrite onWrite_cons. cbv zeta. rewrite E.
    destruct b; try reflexivity; discriminate E.
Qed.

Import SessionTable.

(** The printed rows of the table are rows of [handler_table] too. *)
Lemma handler_table_listed (s : KavitaMangaReaderState) (t : Trigger) :
  listed s t = true -> handler_table s t = spec_table s t.
Proof.
  destruct s, t; cbn; intros H; try reflexivity; discriminate H.
Qed.

(** Away from the departures [handler_table] is the table of section 4.1,
    rows and "no row, no change" alike. *)
Lemma handler_table_unless_departs (s : KavitaMangaReaderState)
  (t : Trigger) :
  departs s t = false -> handler_table s t = spec_table s t.
Proof.
  destruct s, t; cbn; intros H; try reflexivity; discriminate H.
Qed.

(** Where an event takes the activity, read off [handler_table]. *)
Lemma step_reaches (e : Event) (a : Activity) :
  match step e a with
  | Some a' => reaches a a' (handler_table (state a) (trigger_of e a))
  | None =>
      (exists n p, e = Tick n p) /\ state a = LOAD_LIST
      /\ cmdCharacteristic a = true /\ dataCharacteristic a = false
  end.
Proof.
  destruct e as [ | | n p | | r | data ]; cbn [step].
  - destruct (state a); reflexivity.
  - unfold onExit, stopAdvertising.
    destruct (bleServer a), (state a) eqn:Es; cbn; exact Es.
  - unfold loop. cbn [trigger_of].
    destruct (state a) eqn:Es.
    + unfold handleCheckCompanionApp.
      destruct (peerConnected n a); reflexivity.
    + unfold handleWaitForCompanionApp.
      destruct (peerConnected n a); cbn; [ reflexivity | exact Es ].
    + unfold handleLoadList. cbn.
      destruct (cmdCharacteristic a) eqn:Ec; [ | reflexivity ].
      destruct (dataCharacteristic a) eqn:Ed; [ reflexivity | ].
      repeat split; eauto.
    + exact Es.
    + unfold handleBrowsingList.
      destruct (p Back); [ cbn; rewrite Es; now split | ].
      unfold browseConfirm.
      destruct (p Confirm); cbn [andb].
      * destruct (selectionValid _); [ reflexivity | ].
        cbn. unfold browseDown, browseUp.
        destruct (p Down), (p Up);
          case_ifs; exact Es.
      * cbn. unfold browseDown, browseUp.
        destruct (p Down), (p Up);
          case_ifs; exact Es.
    + unfold handleLoadPage. rewrite selectionValid_negb.
      destruct (selectionValid a); cbn [negb]; [ | reflexivity ].
      destruct (dataCharacteristic a); reflexivity.
    + exact Es.
    + unfold handleDisplayPage.
      destruct (p Back); [ reflexivity | ].
      destruct (p Left), (p PageBack), (p Right), (p PageForward);
        cbn; try reflexivity; exact Es.
    + unfold handleError.
      destruct (p Back); [ cbn; rewrite Es; now split | ].
      destruct (p Confirm); cbn; [ rewrite Es; now split | exact Es ].
  - destruct (state a) eqn:Es; cbn; exact Es.
  - destruct (state a); reflexivity.
  - destruct data as [|b rest];
      [ destruct (state a) eqn:Es; cbn; exact Es | ].
    cbn [trigger_of statusOf nth_error].
    assert (Hs := onWrite_state b rest a).
    destruct b; destruct (state a); cbn in *; exact Hs.
Qed.

(** C3, as amended.  Every event takes the activity where [handler_table]
    says, and for the rows the table of section 4.1 prints that is where
    the table itself says.  "No row, no change" holds as well, except that
    the list-end, page-end and peer-error messages act in every state (to
    BROWSING_LIST, DISPLAY_PAGE and ERROR), that a disconnect leads to
    WAITING_FOR_APP from ERROR as from every other state, that a missing
    transport leads to ERROR from LOAD_PAGE too, and that entering the
    session leads to CHECK_COMPANION_APP from any state.  The one call with
    no outcome is [loop] in LOAD_LIST with the command characteristic set
    and the data characteristic null. *)
Theorem transitions_follow_handler_table :
  forall (e : Event) (a : Activity),
    match step e a with
    | Some a' =>
        reaches a a' (handler_table (state a) (trigger_of e a))
        /\ (listed (state a) (trigger_of e a) = true ->
            reaches a a' (spec_table (state a) (trigger_of e a)))
        /\ (departs (state a) (trigger_of e a) = false ->
            reaches a a' (spec_table (state a) (trigger_of e a)))
    | None =>
        (exists n p, e = Tick n p) /\ state a = LOAD_LIST
        /\ cmdCharacteristic a = true /\ dataCharacteristic a = false
    end.
Proof.
  intros e a.
  destruct (step e a) as [a'|] eqn:Hstep.
  - assert (H := step_reaches e a). rewrite Hstep in H.
    split; [ exact H | ]. split.
    + intros Hlisted. now rewrite <- (handler_table_listed _ _ Hlisted).
    + intros Hd. now rewrite <- (handler_table_unless_departs _ _ Hd).
  - assert (H := step_reaches e a). rewrite Hstep in H. exact H.
Qed.

Lemma transitions_follow_handler_table_witness :
  listed (state receivingPage)
         (trigger_of (FrameReceived [BleStatus.PAGE_END]) receivingPage) = true
  /\ reaches receivingPage (onWrite [BleStatus.PAGE_END] receivingPage)
        (spec_table RECEIVING_PAGE page_end_message)
  /\ departs (state browsingTwoEntries)
             (trigger_of (FrameReceived [BleStatus.LIST_START])
                browsingTwoEntries) = false
  /\ reaches browsingTwoEntries
        (onWrite [BleStatus.LIST_START] browsingTwoEntries)
        (spec_table BROWSING_LIST other).
Proof.
  split; [ reflexivity | ]. split.
  - apply (proj1 (proj2 (transitions_follow_handler_table
                           (FrameReceived [BleStatus.PAGE_END])
                           receivingPage))).
    reflexivity.
  - split; [ reflexivity | ].
    apply (proj2 (proj2 (transitions_follow_handler_table
                           (FrameReceived [BleStatus.LIST_START])
                           browsingTwoEntries))).
    reflexivity.
Defined.

(** C3, counterexample.  Places where the table of section 4.1 has no row,
    and so asks for no change, and the state changes all the same: a
    PAGE_END frame in BROWSING_LIST leads to DISPLAY_PAGE, a LIST_END frame
    in RECEIVING_PAGE to BROWSING_LIST, an ERROR frame in BROWSING_LIST to
    ERROR, a [loop] call in LOAD_PAGE without a data characteristic to
    ERROR; a disconnect takes the activity out of ERROR, which no one
    dismissed, to WAITING_FOR_APP, from where two [loop] calls ask for the
    list again; and entering the session anew from BROWSING_LIST leads to
    CHECK_COMPANION_APP. *)
Lemma unlisted_triggers_change_state :
  (run listingSession constructed = Some browsingTwoEntries
   /\ trigger_of (FrameReceived [BleStatus.PAGE_END]) browsingTwoEntries
      = page_end_message
   /\ spec_table (state browsingTwoEntries) page_end_message
      = Goto BROWSING_LIST
   /\ state (onWrite [BleStatus.PAGE_END] browsingTwoEntries) = DISPLAY_PAGE)
  /\ (run pageRequestSession constructed = Some receivingPage
      /\ trigger_of (FrameReceived [BleStatus.LIST_END]) receivingPage
         = list_end_message
      /\ spec_table (state receivingPage) list_end_message
         = Goto RECEIVING_PAGE
      /\ state (onWrite [BleStatus.LIST_END] receivingPage) = BROWSING_LIST)
  /\ (trigger_of (FrameReceived [BleStatus.ERROR]) browsingTwoEntries
      = peer_error_message
      /\ spec_table (state browsingTwoEntries) peer_error_message
         = Goto BROWSING_LIST
      /\ state (onWrite [BleStatus.ERROR] browsingTwoEntries) = ERROR)
  /\ (trigger_of (Tick 0 noButton) selectedWithoutTransport
      = transport_unavailable
      /\ spec_table (state selectedWithoutTransport) transport_unavailable
         = Goto LOAD_PAGE
      /\ option_map state (loop 0 noButton selectedWithoutTransport)
         = Some ERROR)
  /\ (run erroredSession constructed = Some peerReportedError
      /\ state peerReportedError = ERROR
      /\ trigger_of (PeerDisconnected 0%Z) peerReportedError
         = peer_disconnected
      /\ spec_table (state peerReportedError) peer_disconnected = Goto ERROR
      /\ state (onDisconnect 0%Z peerReportedError) = WAITING_FOR_APP
      /\ ~ In GoHome (effects (onDisconnect 0%Z peerReportedError))
      /\ option_map state
           (run [PeerDisconnected 0%Z; Tick 1 noButton; Tick 1 noButton]
                peerReportedError)
         = Some RECEIVING_LIST)
  /\ (trigger_of Enter browsingTwoEntries = session_entry
      /\ spec_table (state browsingTwoEntries) session_entry
         = Goto BROWSING_LIST
      /\ state (onEnter browsingTwoEntries) = CHECK_COMPANION_APP)
  /\ ~ (forall (e : Event) (a a' : Activity),
          step e a = Some a' ->
          reaches a a' (spec_table (state a) (trigger_of e a))).
Proof.
  repeat split.
  - cbn. intros H.
    repeat (destruct H as [H|H]; [ discriminate H | ]). exact H.
  - intros H.
    specialize (H (FrameReceived [BleStatus.PAGE_END]) browsingTwoEntries _
                  eq_refl).
    cbn in H. discriminate H.
Qed.

(** ** The REQUEST_PAGE command *)

Lemma to_nat_le_255 (b : byte) : Byte.to_nat b <= 255.
Proof.
  assert (H := Byte.to_of_nat_option_map (Byte.to_nat b)).
  rewrite Byte.of_to_nat in H. cbn in H.
  destruct (Byte.to_nat b <=? 255) eqn:E; [ | discriminate H ].
  now apply Nat.leb_le.
Qed.

Lemma uint8_of_size_to_nat (n : nat) :
  n <= 255 -> Byte.to_nat (uint8_of_size n) = n.
Proof.
  intros Hn. unfold uint8_of_size.
  rewrite Nat.mod_small by lia.
  assert (H := Byte.to_of_nat_option_map n).
  replace (n <=? 255) with true in H by (symmetry; now apply Nat.leb_le).
  destruct (Byte.of_nat n) as [b|]; cbn in H; [ | discriminate H ].
  now injection H.
Qed.

Lemma wrap_int_le (z : Z) : (0 <= z)%Z -> (wrap_int z <= z)%Z.
Proof.
  intros Hz. unfold wrap_int.
  assert (H := Z.mod_le (z + 2 ^ 31) (2 ^ 32)). lia.
Qed.








Lemma selectionValid_nth_error (a : Activity) :
  selectionValid a = true ->
  exists e : MangaEntry,
    nth_error (mangaList a) (Z.to_nat (currentMangaIndex a)) = Some e
    /\ nth (Z.to_nat (currentMangaIndex a)) (mangaList a) (mkMangaEntry [] [])
       = e.
Proof.
  unfold selectionValid, size_as_int. intros H.
  apply andb_true_iff in H. destruct H as [H0 H1].
  apply Z.leb_le in H0. apply Z.ltb_lt in H1.
  assert (Hle := wrap_int_le (Z.of_nat (List.length (mangaList a)))
                   (Nat2Z.is_nonneg _)).
  assert (Hlt : Z.to_nat (currentMangaIndex a) < List.length (mangaList a))
    by lia.
  exists (nth (Z.to_nat (currentMangaIndex a)) (mangaList a)
              (mkMangaEntry [] [])).
  split; [ now apply nth_error_nth' | reflexivity ].
Qed.



(** ** Who changes the list, the cursor and the state *)




Lemma isStatus_false_cons (tag b : byte) (rest : list byte) :
  isStatus tag (b :: rest) = false -> Byte.eqb b tag = false.
Proof.
  intros H. exact H.
Qed.

Lemma onWrite_mangaList (data : list byte) (a : Activity) :
  isStatus BleStatus.LIST_START data = false ->
  isStatus BleStatus.LIST_ENTRY data = false ->
  mangaList (onWrite data a) = mangaList a.
Proof.
  destruct data as [|b rest]; [ reflexivity | ].
  intros H1 H2. apply isStatus_false_cons in H1, H2.
  rewrite onWrite_cons. cbv zeta. rewrite H1, H2.
  case_ifs; reflexivity.
Qed.

Lemma onWrite_currentMangaIndex (data : list byte) (a : Activity) :
  isStatus BleStatus.LIST_END data = false ->
  currentMangaIndex (onWrite data a) = currentMangaIndex a.
Proof.
  destruct data as [|b rest]; [ reflexivity | ].
  intros H. apply isStatus_false_cons in H.
  rewrite onWrite_cons. cbv zeta. rewrite H.
  case_ifs; reflexivity.
Qed.

Lemma loop_keeps_list (n : nat) (p : Button -> bool) (a a' : Activity) :
  state a <> LOAD_LIST -> loop n p a = Some a' -> mangaList a' = mangaList a.
Proof.
  intros Hs H. unfold loop in H.
  destruct (state a) eqn:Es; try congruence;
    injection H as <-;
    unfold handleCheckCompanionApp, handleWaitForCompanionApp,
      handleReceiveList, handleBrowsingList, browseConfirm, browseDown,
      browseUp, handleLoadPage, handleReceivingPage, handleDisplayPage,
      handleError;
    case_ifs; reflexivity.
Qed.

Lemma loop_keeps_cursor (n : nat) (p : Button -> bool) (a a' : Activity) :
  state a <> BROWSING_LIST -> loop n p a = Some a' ->
  currentMangaIndex a' = currentMangaIndex a.
Proof.
  intros Hs H. unfold loop in H.
  destruct (state a) eqn:Es; try congruence.
  3: {
    unfold handleLoadList in H. cbn in H.
    destruct (cmdCharacteristic a); [ destruct (dataCharacteristic a) | ];
      try discriminate H; injection H as <-; reflexivity. }
  all: injection H as <-;
    unfold handleCheckCompanionApp, handleWaitForCompanionApp,
      handleReceiveList, handleLoadPage, handleReceivingPage,
      handleDisplayPage, handleError;
    case_ifs; reflexivity.
Qed.

(** A [loop] call has an outcome wherever [setupBLE] has run or nothing
    has been set up yet, and every other event always has one. *)
Lemma step_total (e : Event) (a : Activity) :
  bleConsistent a -> exists a' : Activity, step e a = Some a'.
Proof.
  intros Hble.
  destruct e as [ | | n p | | r | data ]; cbn [step]; eauto.
  unfold loop. destruct (state a); eauto.
  unfold handleLoadList. cbn.
  destruct (cmdCharacteristic a) eqn:Ec; eauto.
  rewrite (Hble Ec). eauto.
Qed.

Lemma onWrite_ble (data : list byte) (a : Activity) :
  cmdCharacteristic (onWrite data a) = cmdCharacteristic a
  /\ dataCharacteristic (onWrite data a) = dataCharacteristic a.
Proof.
  destruct data as [|b rest]; [ now split | ].
  rewrite onWrite_cons. cbv zeta. case_ifs; now split.
Qed.

Lemma loop_ble (n : nat) (p : Button -> bool) (a a' : Activity) :
  loop n p a = Some a' ->
  cmdCharacteristic a' = cmdCharacteristic a
  /\ dataCharacteristic a' = dataCharacteristic a.
Proof.
  unfold loop. intros H.
  destruct (state a).
  3: {
    unfold handleLoadList in H. cbn in H.
    destruct (cmdCharacteristic a) eqn:Ec;
      [ destruct (dataCharacteristic a) eqn:Ed | ];
      try discriminate H; injection H as <-; cbn; auto. }
  all: injection H as <-;
    unfold handleCheckCompanionApp, handleWaitForCompanionApp,
      handleReceiveList, handleBrowsingList, browseConfirm, browseDown,
      browseUp, handleLoadPage, handleReceivingPage, handleDisplayPage,
      handleError;
    case_ifs; cbn; auto.
Qed.

Lemma step_bleConsistent (e : Event) (a a' : Activity) :
  bleConsistent a -> step e a = Some a' -> bleConsistent a'.
Proof.
  unfold bleConsistent. intros Hble.
  destruct e as [ | | n p | | r | data ]; cbn [step].
  - intros [= <-]. reflexivity.
  - intros [= <-]. unfold onExit, stopAdvertising.
    destruct (bleServer a); exact Hble.
  - intros H. destruct (loop_ble n p a a' H) as [-> ->]. exact Hble.
  - intros [= <-]. exact Hble.
  - intros [= <-]. exact Hble.
  - intros [= <-]. destruct (onWrite_ble data a) as [-> ->]. exact Hble.
Qed.

Lemma reachable_bleConsistent (a : Activity) :
  reachable a -> bleConsistent a.
Proof.
  induction 1 as [ | a a' e _ IH Hstep ].
  - discriminate.
  - exact (step_bleConsistent e a a' IH Hstep).
Qed.

(** In a session every event has an outcome. *)
Lemma reachable_step_total (e : Event) (a : Activity) :
  reachable a -> exists a' : Activity, step e a = Some a'.
Proof.
  intros Hr. apply step_total. now apply reachable_bleConsistent.
Qed.

(** C9, as amended.  Every event has an outcome, and it leaves the list
    unchanged unless it is the entry or exit of the activity, a [loop] call
    in LOAD_LIST, or a LIST_START or LIST_ENTRY frame; it leaves the cursor
    unchanged unless it is the entry of the activity, a [loop] call in
    BROWSING_LIST, or a LIST_END frame.  The state a frame arrives in plays
    no part.  The activity is one whose characteristics are set together,
    as [setupBLE] sets them. *)
Theorem list_and_cursor_change_only_by :
  forall (e : Event) (a : Activity),
    bleConsistent a ->
    exists a' : Activity,
      step e a = Some a'
      /\ (mayChangeList e a = false -> mangaList a' = mangaList a)
      /\ (mayChangeCursor e a = false ->
          currentMangaIndex a' = currentMangaIndex a).
Proof.
  intros e a Hble.
  destruct (step_total e a Hble) as [a' Hstep].
  exists a'. split; [ exact Hstep | ].
  destruct e as [ | | n p | | r | data ]; cbn [step] in Hstep.
  - split; discriminate.
  - injection Hstep as <-. split; [ discriminate | ].
    intros _. unfold onExit, stopAdvertising.
    destruct (bleServer a); reflexivity.
  - split; intros H; cbn [mayChangeList mayChangeCursor] in H.
    + apply (loop_keeps_list n p); [ | exact Hstep ].
      intros E. rewrite E in H. discriminate H.
    + apply (loop_keeps_cursor n p); [ | exact Hstep ].
      intros E. rewrite E in H. discriminate H.
  - injection Hstep as <-. now split.
  - injection Hstep as <-. now split.
  - injection Hstep as <-. split; intros H.
    + cbn [mayChangeList] in H. apply orb_false_iff in H.
      destruct H as [H1 H2]. now apply onWrite_mangaList.
    + now apply onWrite_currentMangaIndex.
Qed.

Lemma list_and_cursor_change_only_by_witness :
  bleConsistent browsingTwoEntries
  /\ exists a' : Activity,
       step (Tick 1 (press Down)) browsingTwoEntries = Some a'
       /\ (mayChangeList (Tick 1 (press Down)) browsingTwoEntries = false ->
           mangaList a' = mangaList browsingTwoEntries)
       /\ (mayChangeCursor (Tick 1 (press Down)) browsingTwoEntries = false ->
           currentMangaIndex a' = currentMangaIndex browsingTwoEntries).
Proof.
  assert (Hble : bleConsistent browsingTwoEntries) by (intros _; reflexivity).
  split; [ exact Hble | ].
  exact (list_and_cursor_change_only_by
           (Tick 1 (press Down)) browsingTwoEntries Hble).
Defined.

(** C9, counterexample.  The list and the cursor change in states other than
    RECEIVING_LIST and BROWSING_LIST: after a disconnect and a reconnect the
    [loop] call in LOAD_LIST empties a list of two entries; in
    RECEIVING_PAGE a LIST_START frame empties the list, a LIST_END frame
    after it moves the cursor from 0 to -1 and a LIST_ENTRY frame appends an
    entry; leaving the activity in RECEIVING_PAGE empties the list, and
    entering it anew empties the list and resets the cursor. *)
Lemma list_and_cursor_change_elsewhere :
  (run reconnectSession constructed = Some reloadingOldList
   /\ state reloadingOldList = LOAD_LIST
   /\ List.length (mangaList reloadingOldList) = 2
   /\ option_map mangaList (step (Tick 1 noButton) reloadingOldList)
      = Some [])
  /\ (run pageRequestSession constructed = Some receivingPage
      /\ state receivingPage = RECEIVING_PAGE
      /\ List.length (mangaList receivingPage) = 2
      /\ mangaList (onWrite [BleStatus.LIST_START] receivingPage) = []
      /\ state (onWrite [BleStatus.LIST_START] receivingPage) = RECEIVING_PAGE
      /\ currentMangaIndex (onWrite [BleStatus.LIST_START] receivingPage) = 0%Z
      /\ currentMangaIndex
           (onWrite [BleStatus.LIST_END]
              (onWrite [BleStatus.LIST_START] receivingPage)) = (-1)%Z
      /\ List.length
           (mangaList (onWrite (entryFrame "3" "Title C") receivingPage)) = 3
      /\ mangaList (onExit receivingPage) = []
      /\ mangaList (onEnter receivingPage) = []
      /\ currentMangaIndex (onEnter receivingPage) = (-1)%Z)
  /\ ~ (forall (e : Event) (a a' : Activity),
          step e a = Some a' ->
          state a <> RECEIVING_LIST -> state a <> BROWSING_LIST ->
          mangaList a' = mangaList a
          /\ currentMangaIndex a' = currentMangaIndex a).
Proof.
  split; [ | split ].
  - repeat split.
  - repeat split.
  - intros H.
    destruct (H (FrameReceived [BleStatus.LIST_START]) receivingPage _ eq_refl)
      as [Hl _]; discriminate.
Qed.

(** * Further properties of the code *)

(** ** LIST_ENTRY frames *)

Lemma firstn_length_app {A : Type} (l r : list A) :
  firstn (List.length l) (l ++ r) = l.
Proof.
  induction l as [|x l IH]; cbn; [ now destruct r | now rewrite IH ].
Qed.

Lemma skipn_length_app {A : Type} (l r : list A) :
  skipn (List.length l) (l ++ r) = r.
Proof.
  induction l as [|x l IH]; cbn; [ reflexivity | exact IH ].
Qed.

Lemma skipn_length_succ_app {A : Type} (l r : list A) (x : A) :
  skipn (List.length l + 1) (l ++ x :: r) = r.
Proof.
  induction l as [|y l IH]; cbn; [ reflexivity | exact IH ].
Qed.

Lemma nth_app_length {A : Type} (l r : list A) (x d : A) :
  nth (List.length l) (l ++ x :: r) d = x.
Proof.
  induction l as [|y l IH]; cbn; [ reflexivity | exact IH ].
Qed.

Lemma encodeListEntry_length (i t : list byte) :
  List.length (encodeListEntry i t) = 2 + List.length i + 1 + List.length t.
Proof.
  unfold encodeListEntry. cbn. rewrite List.length_app. cbn. lia.
Qed.

(** A well-formed LIST_ENTRY frame, whatever follows it, appends its entry. *)
Lemma list_entry_round_trip_aux (a : Activity)
  (mangaId mangaTitle rest : list byte) :
  List.length mangaId <= 255 ->
  List.length mangaTitle <= 255 ->
  onWrite (encodeListEntry mangaId mangaTitle ++ rest) a =
  set_mangaList (mangaList a ++ [mkMangaEntry mangaId mangaTitle]) a.
Proof.
  revert a mangaId mangaTitle rest. intros a i t rest Hi Ht.
  unfold encodeListEntry. cbn [app].
  rewrite onWrite_LIST_ENTRY. cbv zeta.
  set (data := BleStatus.LIST_ENTRY :: _).
  assert (Hlen : List.length data
                 = 2 + List.length i + 1 + List.length t + List.length rest).
  { subst data. cbn [List.length]. rewrite !List.length_app.
    cbn [List.length]. lia. }
  assert (H1 : byteAt data 1 = List.length i).
  { subst data. unfold byteAt. cbn. now apply uint8_of_size_to_nat. }
  rewrite H1.
  assert (H2 : byteAt data (2 + List.length i) = List.length t).
  { subst data. unfold byteAt. cbn [nth Nat.add].
    rewrite <- app_assoc. cbn [app].
    rewrite nth_app_length. now apply uint8_of_size_to_nat. }
  rewrite H2.
  replace (3 <=? List.length data) with true
    by (symmetry; apply Nat.leb_le; lia).
  replace (2 + List.length i + 1 <=? List.length data) with true
    by (symmetry; apply Nat.leb_le; lia).
  replace (2 + List.length i + 1 + List.length t <=? List.length data)
    with true by (symmetry; apply Nat.leb_le; lia).
  cbn [andb].
  assert (Hid : substring data 2 (List.length i) = i).
  { subst data. unfold substring. cbn [skipn].
    rewrite <- app_assoc. apply firstn_length_app. }
  assert (Htitle : substring data (2 + List.length i + 1) (List.length t) = t).
  { subst data. unfold substring.
    replace (2 + List.length i + 1) with (S (S (List.length i + 1))) by lia.
    cbn [skipn]. rewrite <- app_assoc. cbn [app].
    rewrite skipn_length_succ_app. apply firstn_length_app. }
  now rewrite Hid, Htitle.
Qed.


(** X1. Round trip of the LIST_ENTRY layout: a frame built from an id and a
    title of at most 255 bytes each, followed by any trailing bytes, makes
    the handler append exactly the entry with that id and that title: the
    list afterwards is the list before with that entry at its end, and every
    other member of the activity is as it was. *)
Theorem list_entry_round_trip :
  forall (a : Activity) (mangaId mangaTitle rest : list byte),
    List.length mangaId <= 255 ->
    List.length mangaTitle <= 255 ->
    mangaList (onWrite (encodeListEntry mangaId mangaTitle ++ rest) a)
    = mangaList a ++ [mkMangaEntry mangaId mangaTitle]
    /\ otherMembersKept a
         (onWrite (encodeListEntry mangaId mangaTitle ++ rest) a).
Proof.
  intros a mangaId mangaTitle rest Hi Ht.
  rewrite list_entry_round_trip_aux by assumption.
  split; [ reflexivity | apply set_mangaList_otherMembersKept ].
Qed.

Lemma list_entry_round_trip_witness :
  mangaList (onWrite (encodeListEntry [x31] [x41; x42] ++ [xff]) constructed)
  = mangaList constructed ++ [mkMangaEntry [x31] [x41; x42]]
  /\ otherMembersKept constructed
       (onWrite (encodeListEntry [x31] [x41; x42] ++ [xff]) constructed).
Proof.
  apply (list_entry_round_trip constructed [x31] [x41; x42] [xff]);
    cbn; lia.
Defined.

(** X2. No partial entry: a LIST_ENTRY frame cut short anywhere before its
    last byte leaves the activity exactly as it was. *)
Theorem truncated_list_entry_is_dropped :
  forall (a : Activity) (mangaId mangaTitle : list byte) (n : nat),
    List.length mangaId <= 255 ->
    List.length mangaTitle <= 255 ->
    n < List.length (encodeListEntry mangaId mangaTitle) ->
    onWrite (firstn n (encodeListEntry mangaId mangaTitle)) a = a.
Proof.
  intros a i t n Hi Ht Hn.
  rewrite encodeListEntry_length in Hn.
  destruct n as [|n]; [ reflexivity | ].
  assert (Hfull : List.length (encodeListEntry i t)
                  = 2 + List.length i + 1 + List.length t)
    by apply encodeListEntry_length.
  set (frame := encodeListEntry i t) in *.
  assert (Hcut : firstn (S n) frame
                 = BleStatus.LIST_ENTRY :: firstn n (tl frame))
    by reflexivity.
  rewrite Hcut, onWrite_LIST_ENTRY. cbv zeta. rewrite <- Hcut.
  set (data := firstn (S n) frame).
  assert (Hlen : List.length data = S n).
  { subst data. rewrite List.length_firstn. lia. }
  rewrite Hlen.
  destruct (3 <=? S n) eqn:E3; [ | reflexivity ].
  apply Nat.leb_le in E3. cbn [andb].
  assert (H1 : byteAt data 1 = List.length i).
  { subst data. unfold byteAt. rewrite nth_firstn.
    replace (1 <? S n) with true by (symmetry; apply Nat.ltb_lt; lia).
    subst frame. cbn. now apply uint8_of_size_to_nat. }
  rewrite H1.
  destruct (2 + List.length i + 1 <=? S n) eqn:E4; [ | reflexivity ].
  apply Nat.leb_le in E4. cbn [andb].
  assert (H2 : byteAt data (2 + List.length i) = List.length t).
  { subst data. unfold byteAt. rewrite nth_firstn.
    replace (2 + List.length i <? S n) with true
      by (symmetry; apply Nat.ltb_lt; lia).
    subst frame. unfold encodeListEntry. cbn [app nth Nat.add].
    cbn [app]. rewrite nth_app_length. now apply uint8_of_size_to_nat. }
  rewrite H2.
  replace (2 + List.length i + 1 + List.length t <=? S n) with false
    by (symmetry; apply Nat.leb_gt; lia).
  reflexivity.
Qed.

Lemma truncated_list_entry_is_dropped_witness :
  onWrite (firstn 4 (encodeListEntry [x31] [x41; x42])) constructed
  = constructed.
Proof.
  apply (truncated_list_entry_is_dropped constructed [x31] [x41; x42] 4);
    cbn; lia.
Defined.

(** ** Whole listings *)

Lemma run_app (es1 es2 : list Event) (a : Activity) :
  run (es1 ++ es2) a =
  match run es1 a with
  | Some a' => run es2 a'
  | None => None
  end.
Proof.
  revert a. induction es1 as [|e es1 IH]; intros a; cbn [run app].
  - reflexivity.
  - destruct (step e a) as [a'|]; [ apply IH | reflexivity ].
Qed.




(** ** What the frame handler leaves alone *)

(** X5. The frame handler never sends anything to the peer, never hands
    control back through [onGoHome] and never touches the BLE objects: the
    only effect it can add is one redraw request, and it adds it exactly for
    LIST_END, PAGE_END and ERROR frames.  LIST_START and LIST_ENTRY frames
    change the list without asking for a redraw. *)
Theorem onWrite_only_requests_redraw :
  forall (data : list byte) (a : Activity),
    effects (onWrite data a) =
      effects a ++
      (if isStatus BleStatus.LIST_END data
          || isStatus BleStatus.PAGE_END data
          || isStatus BleStatus.ERROR data
       then [RequestUpdate] else [])
    /\ bleServer (onWrite data a) = bleServer a
    /\ kavitaService (onWrite data a) = kavitaService a
    /\ cmdCharacteristic (onWrite data a) = cmdCharacteristic a
    /\ dataCharacteristic (onWrite data a) = dataCharacteristic a.
Proof.
  intros data a.
  destruct data as [|b rest].
  - cbn. rewrite app_nil_r. auto.
  - destruct (Byte.eqb b BleStatus.LIST_ENTRY) eqn:E.
    + apply Byte.byte_dec_bl in E. subst b.
      rewrite onWrite_LIST_ENTRY. cbv zeta.
      destruct (_ && _ && _); cbn; rewrite app_nil_r; auto.
    + rewrite onWrite_cons. cbv zeta. rewrite E.
      unfold isStatus. cbn [statusOf nth_error].
      destruct b; try discriminate E; cbn; rewrite ?app_nil_r; auto.
Qed.

(** ** Invariants of a session *)

Lemma step_error_message (e : Event) (a a' : Activity) :
  (state a = ERROR -> isErrorText (errorMessage a)) ->
  step e a = Some a' ->
  state a' = ERROR -> isErrorText (errorMessage a').
Proof.
  unfold isErrorText. intros Inv Hstep.
  destruct e as [ | | n p | | r | data ]; cbn [step] in Hstep.
  - injection Hstep as <-. discriminate.
  - injection Hstep as <-. unfold onExit, stopAdvertising.
    destruct (bleServer a); exact Inv.
  - unfold loop in Hstep. destruct (state a) eqn:Es.
    3: {
      unfold handleLoadList in Hstep. cbn in Hstep.
      destruct (cmdCharacteristic a);
        [ destruct (dataCharacteristic a) | ];
        try discriminate Hstep; injection Hstep as <-; cbn;
        [ discriminate | auto ]. }
    all: injection Hstep as <-;
      unfold handleCheckCompanionApp, handleWaitForCompanionApp,
        handleReceiveList, handleBrowsingList, browseConfirm, browseDown,
        browseUp, handleLoadPage, handleReceivingPage, handleDisplayPage,
        handleError;
      case_ifs; cbn; try rewrite Es; try discriminate; auto.
  - injection Hstep as <-. exact Inv.
  - injection Hstep as <-. discriminate.
  - injection Hstep as <-.
    destruct data as [|b rest]; [ exact Inv | ].
    destruct (Byte.eqb b BleStatus.LIST_ENTRY) eqn:E.
    + apply Byte.byte_dec_bl in E. subst b.
      rewrite onWrite_LIST_ENTRY. cbv zeta.
      destruct (_ && _ && _); exact Inv.
    + rewrite onWrite_cons. cbv zeta. rewrite E.
      case_ifs; cbn; try discriminate; auto.
Qed.

(** X6. The error screen always has something to show: in every activity a
    session can reach, being in ERROR means [errorMessage] holds one of the
    three texts the code assigns. *)
Theorem error_state_has_message :
  forall a : Activity,
    reachable a -> state a = ERROR -> isErrorText (errorMessage a).
Proof.
  induction 1 as [ | a a' e _ IH Hstep ].
  - discriminate.
  - exact (step_error_message e a a' IH Hstep).
Qed.

Lemma step_cursor_is_int (e : Event) (a a' : Activity) :
  ((-1 <= currentMangaIndex a)%Z /\ isInt (currentMangaIndex a)) ->
  step e a = Some a' ->
  (-1 <= currentMangaIndex a')%Z /\ isInt (currentMangaIndex a').
Proof.
  intros Inv Hstep.
  assert (Hm1 : (-1 <= -1)%Z /\ isInt (-1))
    by (unfold isInt, INT_MIN, INT_MAX; lia).
  assert (H0 : (-1 <= 0)%Z /\ isInt 0)
    by (unfold isInt, INT_MIN, INT_MAX; lia).
  destruct e as [ | | n p | | r | data ]; cbn [step] in Hstep.
  - injection Hstep as <-. exact Hm1.
  - injection Hstep as <-. unfold onExit, stopAdvertising.
    destruct (bleServer a); exact Inv.
  - unfold loop in Hstep. destruct (state a) eqn:Es.
    3: {
      unfold handleLoadList in Hstep. cbn in Hstep.
      destruct (cmdCharacteristic a);
        [ destruct (dataCharacteristic a) | ];
        try discriminate Hstep; injection Hstep as <-; exact Inv. }
    4: {
      injection Hstep as <-. unfold handleBrowsingList.
      destruct (p Back); [ exact Inv | ].
      assert (Hup : (-1 <= currentMangaIndex (browseUp p a))%Z
                    /\ isInt (currentMangaIndex (browseUp p a))).
      { unfold browseUp. destruct (p Up); [ | exact Inv ].
        destruct (0 <? currentMangaIndex a)%Z eqn:E; [ | exact Inv ].
        apply Z.ltb_lt in E. cbn.
        destruct Inv as [_ Hint].
        rewrite wrap_int_small; unfold isInt, INT_MIN, INT_MAX in *; lia. }
      set (a1 := browseUp p a) in *.
      assert (Hdown : (-1 <= currentMangaIndex (browseDown p a1))%Z
                      /\ isInt (currentMangaIndex (browseDown p a1))).
      { unfold browseDown. destruct (p Down); [ | exact Hup ].
        destruct (currentMangaIndex a1 <? _)%Z eqn:E; [ | exact Hup ].
        apply Z.ltb_lt in E. cbn.
        assert (Hw := wrap_int_isInt (size_as_int a1 - 1)).
        destruct Hup as [Hlow Hint].
        rewrite wrap_int_small; unfold isInt, INT_MIN, INT_MAX in *; lia. }
      unfold browseConfirm. case_ifs; exact Hdown. }
    all: injection Hstep as <-;
      unfold handleCheckCompanionApp, handleWaitForCompanionApp,
        handleReceiveList, handleLoadPage, handleReceivingPage,
        handleDisplayPage, handleError;
      case_ifs; exact Inv.
  - injection Hstep as <-. exact Inv.
  - injection Hstep as <-. exact Inv.
  - injection Hstep as <-.
    destruct data as [|b rest]; [ exact Inv | ].
    destruct (Byte.eqb b BleStatus.LIST_ENTRY) eqn:E.
    + apply Byte.byte_dec_bl in E. subst b.
      rewrite onWrite_LIST_ENTRY. cbv zeta.
      destruct (_ && _ && _); exact Inv.
    + rewrite onWrite_cons. cbv zeta. rewrite E.
      case_ifs; cbn; try exact Inv; destruct (mangaList a); assumption.
Qed.

(** X7. In every activity a session can reach, the cursor is at least -1
    and is a value an [int] can hold: no Up or Down ever overflows it. *)
Theorem reachable_cursor_is_int :
  forall a : Activity,
    reachable a ->
    (-1 <= currentMangaIndex a)%Z /\ isInt (currentMangaIndex a).
Proof.
  induction 1 as [ | a a' e _ IH Hstep ].
  - cbn. unfold isInt, INT_MIN, INT_MAX. lia.
  - exact (step_cursor_is_int e a a' IH Hstep).
Qed.

Lemma reachable_cursor_is_int_witness :
  (-1 <= currentMangaIndex browsingTwoEntries)%Z
  /\ isInt (currentMangaIndex browsingTwoEntries).
Proof.
  apply (reachable_cursor_is_int browsingTwoEntries).
  apply (run_reachable listingSession constructed);
    [ constructor | reflexivity ].
Defined.

Lemma error_state_has_message_witness :
  isErrorText (errorMessage (onWrite [BleStatus.ERROR] browsingTwoEntries)).
Proof.
  apply (error_state_has_message
           (onWrite [BleStatus.ERROR] browsingTwoEntries)).
  - apply (run_reachable
             (listingSession ++ [FrameReceived [BleStatus.ERROR]])
             constructed);
      [ constructor | reflexivity ].
  - reflexivity.
Defined.

(** ** Connecting and reconnecting *)

Lemma waiting_without_peer (presses : list (Button -> bool)) (a : Activity) :
  state a = WAITING_FOR_APP ->
  run (map (Tick 0) presses) a = Some a.
Proof.
  intros Hs. induction presses as [|p presses IH]; [ reflexivity | ].
  cbn [map run step]. unfold loop. rewrite Hs.
  unfold handleWaitForCompanionApp, peerConnected.
  rewrite andb_false_r. exact IH.
Qed.

(** X8. From the check state with BLE set up, however many [loop] calls
    find no peer, the first call that finds one and the call after it
    put the activity in RECEIVING_LIST with an empty list, having sent the
    REQUEST_LIST command exactly once and nothing else. *)
Theorem connecting_requests_list_once :
  forall (a : Activity) (waiting : list (Button -> bool))
         (peers c : nat) (p1 p2 : Button -> bool),
    state a = CHECK_COMPANION_APP ->
    bleServer a = true ->
    cmdCharacteristic a = true ->
    dataCharacteristic a = true ->
    exists a' : Activity,
      run (map (Tick 0) waiting ++ [Tick (S peers) p1; Tick c p2]) a = Some a'
      /\ state a' = RECEIVING_LIST
      /\ mangaList a' = []
      /\ notified (effects a')
         = notified (effects a) ++ [[BleCommand.REQUEST_LIST]].
Proof.
  intros a waiting peers c p1 p2 Hs Hserver Hcmd Hdata.
  destruct waiting as [|p waiting].
  - cbn [map app run step]. unfold loop. rewrite Hs.
    unfold handleCheckCompanionApp, peerConnected. rewrite Hserver.
    cbn. unfold handleLoadList. cbn. rewrite Hcmd, Hdata.
    eexists. split; [ reflexivity | ]. cbn.
    repeat split. rewrite !notified_app. cbn. now rewrite !app_nil_r.
  - cbn [map app run step]. unfold loop at 1. rewrite Hs.
    unfold handleCheckCompanionApp, peerConnected.
    rewrite andb_false_r.
    rewrite run_app, waiting_without_peer by reflexivity.
    cbn [run step]. unfold loop. cbn.
    unfold handleWaitForCompanionApp, peerConnected. cbn. rewrite Hserver.
    cbn. unfold handleLoadList. cbn. rewrite Hcmd, Hdata.
    eexists. split; [ reflexivity | ]. cbn.
    repeat split. rewrite !notified_app. cbn. now rewrite !app_nil_r.
Qed.

Lemma connecting_requests_list_once_witness :
  exists a' : Activity,
    run (map (Tick 0) [noButton; noButton]
           ++ [Tick 1 noButton; Tick 1 noButton]) (onEnter constructed)
    = Some a'
    /\ state a' = RECEIVING_LIST
    /\ mangaList a' = []
    /\ notified (effects a')
       = notified (effects (onEnter constructed))
           ++ [[BleCommand.REQUEST_LIST]].
Proof.
  apply (connecting_requests_list_once (onEnter constructed)
           [noButton; noButton] 0 1 noButton noButton);
    reflexivity.
Defined.

(** X9. After a disconnect in any state, with BLE set up, the next [loop]
    call that finds a peer and the call after it ask for the list again:
    the activity is in RECEIVING_LIST, the old list is gone, REQUEST_LIST
    was sent once, and the cursor still holds the value it had before the
    disconnect. *)
Theorem reconnecting_reloads_list :
  forall (a : Activity) (reason : Z) (peers c : nat)
         (p1 p2 : Button -> bool),
    bleServer a = true ->
    cmdCharacteristic a = true ->
    dataCharacteristic a = true ->
    exists a' : Activity,
      run [PeerDisconnected reason; Tick (S peers) p1; Tick c p2] a = Some a'
      /\ state a' = RECEIVING_LIST
      /\ mangaList a' = []
      /\ currentMangaIndex a' = currentMangaIndex a
      /\ notified (effects a')
         = notified (effects a) ++ [[BleCommand.REQUEST_LIST]].
Proof.
  intros a reason peers c p1 p2 Hserver Hcmd Hdata.
  cbn [run step]. unfold loop, onDisconnect. cbn.
  unfold handleWaitForCompanionApp, peerConnected. cbn. rewrite Hserver.
  cbn. unfold handleLoadList. cbn. rewrite Hcmd, Hdata.
  eexists. split; [ reflexivity | ]. cbn.
  repeat split. rewrite !notified_app. cbn. now rewrite !app_nil_r.
Qed.

Lemma reconnecting_reloads_list_witness :
  exists a' : Activity,
    run [PeerDisconnected 0%Z; Tick 1 noButton; Tick 1 noButton]
        browsingTwoEntries = Some a'
    /\ state a' = RECEIVING_LIST
    /\ mangaList a' = []
    /\ currentMangaIndex a' = currentMangaIndex browsingTwoEntries
    /\ notified (effects a')
       = notified (effects browsingTwoEntries)
           ++ [[BleCommand.REQUEST_LIST]].
Proof.
  apply (reconnecting_reloads_list browsingTwoEntries 0%Z 0 1
           noButton noButton);
    reflexivity.
Defined.

(** ** From the list to a page request *)



Lemma handleLoadPage_valid (a : Activity) :
  selectionValid a = true ->
  dataCharacteristic a = true ->
  exists e : MangaEntry,
    nth_error (mangaList a) (Z.to_nat (currentMangaIndex a)) = Some e
    /\ handleLoadPage a =
       requestUpdate
         (set_state RECEIVING_PAGE (emit (Notify (requestBuffer (id e))) a)).
Proof.
  intros Hvalid Hdata.
  destruct (selectionValid_nth_error a Hvalid) as [e [Hnth Hdef]].
  exists e. split; [ exact Hnth | ].
  unfold handleLoadPage.
  rewrite selectionValid_negb, Hvalid, Hdef, Hdata. reflexivity.
Qed.



(** X11. Previous page and next page ask for the same thing: from
    DISPLAY_PAGE with a valid selection, a [loop] call that finds any of
    Left, PageBack, Right or PageForward pressed (and not Back), followed by
    one more call, sends once more the request for the selected entry, page
    number 0, whichever button it was, and ends in RECEIVING_PAGE. *)
Theorem page_turn_requests_same_page :
  forall (a : Activity) (c1 c2 : nat) (p1 p2 : Button -> bool),
    state a = DISPLAY_PAGE ->
    selectionValid a = true ->
    dataCharacteristic a = true ->
    p1 Back = false ->
    pageTurnPressed p1 = true ->
    exists (e : MangaEntry) (a' : Activity),
      nth_error (mangaList a) (Z.to_nat (currentMangaIndex a)) = Some e
      /\ run [Tick c1 p1; Tick c2 p2] a = Some a'
      /\ state a' = RECEIVING_PAGE
      /\ notified (effects a')
         = notified (effects a)
             ++ [[BleCommand.REQUEST_PAGE; uint8_of_size (List.length (id e))]
                   ++ id e ++ [x00; x00]].
Proof.
  intros a c1 c2 p1 p2 Hs Hvalid Hdata Hback Hturn.
  destruct (selectionValid_nth_error a Hvalid) as [e [Hnth Hdef]].
  exists e.
  set (a1 := handleDisplayPage p1 a).
  assert (H1 : state a1 = LOAD_PAGE
               /\ selectionValid a1 = selectionValid a
               /\ dataCharacteristic a1 = dataCharacteristic a
               /\ mangaList a1 = mangaList a
               /\ currentMangaIndex a1 = currentMangaIndex a
               /\ notified (effects a1) = notified (effects a)).
  { subst a1. unfold handleDisplayPage, pageTurnPressed in *.
    rewrite Hback.
    destruct (p1 Left), (p1 PageBack), (p1 Right), (p1 PageForward);
      try discriminate Hturn; cbn;
      rewrite ?notified_app; cbn; rewrite ?app_nil_r; auto 10. }
  destruct H1 as [Hs1 [Hv1 [Hd1 [Hl1 [Hi1 Hn1]]]]].
  destruct (handleLoadPage_valid a1) as [e1 [Hnth1 Hload]];
    [ congruence | congruence | ].
  assert (e1 = e) by (rewrite Hl1, Hi1 in Hnth1; congruence). subst e1.
  eexists. split; [ exact Hnth | ]. split.
  - cbn [run step]. unfold loop at 1. rewrite Hs. fold a1.
    unfold loop. rewrite Hs1, Hload. reflexivity.
  - split; [ reflexivity | ].
    cbn. rewrite !notified_app, Hn1. cbn. now rewrite app_nil_r.
Qed.

Lemma page_turn_requests_same_page_witness :
  exists (e : MangaEntry) (a' : Activity),
    nth_error (mangaList (set_state DISPLAY_PAGE browsingTwoEntries))
              (Z.to_nat (currentMangaIndex
                           (set_state DISPLAY_PAGE browsingTwoEntries)))
    = Some e
    /\ run [Tick 1 (press Left); Tick 1 noButton]
           (set_state DISPLAY_PAGE browsingTwoEntries) = Some a'
    /\ state a' = RECEIVING_PAGE
    /\ notified (effects a')
       = notified (effects (set_state DISPLAY_PAGE browsingTwoEntries))
           ++ [[BleCommand.REQUEST_PAGE; uint8_of_size (List.length (id e))]
                 ++ id e ++ [x00; x00]].
Proof.
  apply (page_turn_requests_same_page
           (set_state DISPLAY_PAGE browsingTwoEntries) 1 1
           (press Left) noButton);
    reflexivity.
Defined.

(** ** Repeated Up and Down *)

Lemma browse_app (ps1 ps2 : list (Button -> bool)) (a : Activity) :
  browse (ps1 ++ ps2) a = browse ps2 (browse ps1 a).
Proof.
  unfold browse. apply fold_left_app.
Qed.

Lemma press_Down_once (a : Activity) :
  selectionValid a = true ->
  selectionValid (handleBrowsingList (press Down) a) = true
  /\ size_as_int (handleBrowsingList (press Down) a) = size_as_int a
  /\ currentMangaIndex (handleBrowsingList (press Down) a)
     = Z.min (currentMangaIndex a + 1) (size_as_int a - 1).
Proof.
  unfold selectionValid. intros Hv.
  apply andb_true_iff in Hv. destruct Hv as [H0 H1].
  apply Z.leb_le in H0. apply Z.ltb_lt in H1.
  assert (Hsz := wrap_int_isInt (Z.of_nat (List.length (mangaList a)))).
  fold (size_as_int a) in Hsz.
  unfold handleBrowsingList, browseConfirm, browseDown, browseUp.
  cbn [press Button_eqb].
  rewrite (wrap_int_small (size_as_int a - 1))
    by (unfold isInt, INT_MIN, INT_MAX in *; lia).
  destruct (currentMangaIndex a <? size_as_int a - 1)%Z eqn:E.
  - apply Z.ltb_lt in E.
    unfold size_as_int in *. cbn.
    rewrite wrap_int_small
      by (unfold isInt, INT_MIN, INT_MAX in *; lia).
    repeat split; try lia;
      try (apply andb_true_iff; split;
           [ apply Z.leb_le | apply Z.ltb_lt ]; lia).
  - apply Z.ltb_ge in E.
    repeat split; try lia;
      try (apply andb_true_iff; split;
           [ apply Z.leb_le | apply Z.ltb_lt ]; lia).
Qed.

Lemma press_Up_once (a : Activity) :
  selectionValid a = true ->
  selectionValid (handleBrowsingList (press Up) a) = true
  /\ size_as_int (handleBrowsingList (press Up) a) = size_as_int a
  /\ currentMangaIndex (handleBrowsingList (press Up) a)
     = Z.max (currentMangaIndex a - 1) 0.
Proof.
  unfold selectionValid. intros Hv.
  apply andb_true_iff in Hv. destruct Hv as [H0 H1].
  apply Z.leb_le in H0. apply Z.ltb_lt in H1.
  assert (Hsz := wrap_int_isInt (Z.of_nat (List.length (mangaList a)))).
  fold (size_as_int a) in Hsz.
  unfold handleBrowsingList, browseConfirm, browseDown, browseUp.
  cbn [press Button_eqb].
  destruct (0 <? currentMangaIndex a)%Z eqn:E.
  - apply Z.ltb_lt in E.
    unfold size_as_int in *. cbn.
    rewrite wrap_int_small
      by (unfold isInt, INT_MIN, INT_MAX in *; lia).
    repeat split; try lia;
      try (apply andb_true_iff; split;
           [ apply Z.leb_le | apply Z.ltb_lt ]; lia).
  - apply Z.ltb_ge in E.
    repeat split; try lia;
      try (apply andb_true_iff; split;
           [ apply Z.leb_le | apply Z.ltb_lt ]; lia).
Qed.

(** X12. Clamping in closed form: with the cursor on an entry, [n] calls
    that find only Down pressed leave the cursor at the smaller of "cursor
    plus [n]" and the last index, and [n] calls that find only Up pressed
    leave it at the larger of "cursor minus [n]" and 0. *)
Theorem repeated_presses_clamp :
  forall (n : nat) (a : Activity),
    selectionValid a = true ->
    currentMangaIndex (browse (repeat (press Down) n) a)
      = Z.min (currentMangaIndex a + Z.of_nat n) (size_as_int a - 1)
    /\ currentMangaIndex (browse (repeat (press Up) n) a)
       = Z.max (currentMangaIndex a - Z.of_nat n) 0.
Proof.
  intros n a Hv.
  assert (Hrange : (0 <= currentMangaIndex a < size_as_int a)%Z).
  { unfold selectionValid in Hv. apply andb_true_iff in Hv.
    destruct Hv as [H0 H1]. apply Z.leb_le in H0. apply Z.ltb_lt in H1.
    lia. }
  split.
  - revert a Hv Hrange. induction n as [|n IH]; intros a Hv Hrange.
    + cbn. lia.
    + cbn [repeat]. unfold browse. cbn [fold_left].
      fold (browse (repeat (press Down) n)
                   (handleBrowsingList (press Down) a)).
      destruct (press_Down_once a Hv) as [Hv' [Hsz Hidx]].
      rewrite IH; [ | exact Hv' | rewrite Hsz, Hidx; lia ].
      rewrite Hsz, Hidx. lia.
  - revert a Hv Hrange. induction n as [|n IH]; intros a Hv Hrange.
    + cbn. lia.
    + cbn [repeat]. unfold browse. cbn [fold_left].
      fold (browse (repeat (press Up) n)
                   (handleBrowsingList (press Up) a)).
      destruct (press_Up_once a Hv) as [Hv' [Hsz Hidx]].
      rewrite IH; [ | exact Hv' | rewrite Hsz, Hidx; lia ].
      rewrite Hidx. lia.
Qed.

Lemma repeated_presses_clamp_witness :
  currentMangaIndex (browse (repeat (press Down) 5) browsingTwoEntries)
    = Z.min (currentMangaIndex browsingTwoEntries + Z.of_nat 5)
            (size_as_int browsingTwoEntries - 1)
  /\ currentMangaIndex (browse (repeat (press Up) 5) browsingTwoEntries)
     = Z.max (currentMangaIndex browsingTwoEntries - Z.of_nat 5) 0.
Proof.
  apply (repeated_presses_clamp 5 browsingTwoEntries). reflexivity.
Defined.

(** ** Redraw requests of the polling loop *)

(** X13. The polling loop changes nothing silently: after any [loop] call
    the effects are the old ones followed by new ones, and either a redraw
    request is among the new ones or state, list, cursor and error message
    are all as before. *)
Theorem loop_changes_come_with_redraw :
  forall (c : nat) (p : Button -> bool) (a a' : Activity),
    loop c p a = Some a' ->
    exists added : list Effect,
      effects a' = effects a ++ added
      /\ (In RequestUpdate added
          \/ (state a' = state a
              /\ mangaList a' = mangaList a
              /\ currentMangaIndex a' = currentMangaIndex a
              /\ errorMessage a' = errorMessage a)).
Proof.
  intros c p a a' Hloop. unfold loop in Hloop.
  assert (Hsame : forall b : Activity,
             b = a ->
             exists added : list Effect,
               effects b = effects a ++ added
               /\ (In RequestUpdate added
                   \/ (state b = state a
                       /\ mangaList b = mangaList a
                       /\ currentMangaIndex b = currentMangaIndex a
                       /\ errorMessage b = errorMessage a))).
  { intros b ->. exists []. rewrite app_nil_r. auto 10. }
  destruct (state a) eqn:Es.
  3: {
    unfold handleLoadList in Hloop. cbn in Hloop.
    destruct (cmdCharacteristic a);
      [ destruct (dataCharacteristic a) | ];
      try discriminate Hloop; injection Hloop as <-; cbn.
    - exists [Notify [BleCommand.REQUEST_LIST]; RequestUpdate].
      rewrite <- app_assoc. cbn. solve [ auto ].
    - exists [RequestUpdate]. cbn. solve [ auto ]. }
  4: {
    injection Hloop as <-. unfold handleBrowsingList.
    destruct (p Back).
    { exists [GoHome]. cbn. solve [ auto 10 ]. }
    unfold browseConfirm, browseDown, browseUp.
    case_ifs; cbn; rewrite <- ?app_assoc; cbn;
      first [ apply Hsame; reflexivity
            | eexists; split; [ reflexivity | left; cbn; solve [ auto ] ] ]. }
  all: injection Hloop as <-;
    unfold handleCheckCompanionApp, handleWaitForCompanionApp,
      handleReceiveList, handleLoadPage, handleReceivingPage,
      handleDisplayPage, handleError, onGoHome;
    case_ifs; cbn; rewrite <- ?app_assoc; cbn;
      first [ apply Hsame; reflexivity
            | eexists; split; [ reflexivity | left; cbn; solve [ auto ] ]
            | exists [GoHome]; cbn; solve [ auto 10 ] ].
Qed.

Lemma loop_changes_come_with_redraw_witness :
  exists added : list Effect,
    effects (handleBrowsingList (press Down) browsingTwoEntries)
    = effects browsingTwoEntries ++ added
    /\ (In RequestUpdate added
        \/ (state (handleBrowsingList (press Down) browsingTwoEntries)
            = state browsingTwoEntries
            /\ mangaList (handleBrowsingList (press Down) browsingTwoEntries)
               = mangaList browsingTwoEntries
            /\ currentMangaIndex
                 (handleBrowsingList (press Down) browsingTwoEntries)
               = currentMangaIndex browsingTwoEntries
            /\ errorMessage
                 (handleBrowsingList (press Down) browsingTwoEntries)
               = errorMessage browsingTwoEntries)).
Proof.
  apply (loop_changes_come_with_redraw 1 (press Down) browsingTwoEntries).
  reflexivity.
Defined.

(** ** The offset of a PAGE_DATA frame *)

Lemma lor_shiftl_low (hi lo k : Z) :
  (0 <= k)%Z -> (0 <= lo < 2 ^ k)%Z ->
  Z.lor (Z.shiftl hi k) lo = (hi * 2 ^ k + lo)%Z.
Proof.
  intros Hk Hlo.
  assert (Hland : Z.land (Z.shiftl hi k) lo = 0%Z).
  { apply Z.bits_inj'. intros n Hn.
    rewrite Z.land_spec, Z.bits_0.
    destruct (Z.lt_ge_cases n k) as [Hlt|Hge].
    - now rewrite Z.shiftl_spec_low.
    - destruct (Z.eq_dec lo 0) as [->|Hnz].
      + now rewrite Z.bits_0, andb_false_r.
      + rewrite (Z.bits_above_log2 lo n), andb_false_r; [ reflexivity | lia | ].
        assert (Z.log2 lo < k)%Z by (apply Z.log2_lt_pow2; lia). lia. }
  rewrite <- (Z.add_0_r (Z.lor _ _)), <- Hland, Z.add_lor_land.
  now rewrite Z.shiftl_mul_pow2.
Qed.

Lemma byteAt_range (data : list byte) (i : nat) :
  (0 <= Z.of_nat (byteAt data i) < 256)%Z.
Proof.
  unfold byteAt. assert (H := to_nat_le_255 (nth i data x00)). lia.
Qed.

(** X4. The offset of a PAGE_DATA frame is read big-endian from the four
    bytes after the status byte: it is
    [2^24 * data[1] + 2^16 * data[2] + 2^8 * data[3] + data[4]], a value
    below [2^32]. *)
Theorem chunkOffset_big_endian :
  forall data : list byte,
    chunkOffset data =
      (16777216 * Z.of_nat (byteAt data 1)
       + 65536 * Z.of_nat (byteAt data 2)
       + 256 * Z.of_nat (byteAt data 3)
       + Z.of_nat (byteAt data 4))%Z
    /\ (0 <= chunkOffset data < 4294967296)%Z.
Proof.
  intros data. unfold chunkOffset, wrap_uint32.
  assert (H1 := byteAt_range data 1).
  assert (H2 := byteAt_range data 2).
  assert (H3 := byteAt_range data 3).
  assert (H4 := byteAt_range data 4).
  set (b1 := Z.of_nat (byteAt data 1)) in *.
  set (b2 := Z.of_nat (byteAt data 2)) in *.
  set (b3 := Z.of_nat (byteAt data 3)) in *.
  set (b4 := Z.of_nat (byteAt data 4)) in *.
  replace (Z.shiftl b1 24) with (Z.shiftl (Z.shiftl b1 8) 16)
    by (rewrite Z.shiftl_shiftl by lia; reflexivity).
  rewrite <- Z.shiftl_lor.
  rewrite (lor_shiftl_low b1 b2 8) by lia.
  replace (Z.shiftl (b1 * 2 ^ 8 + b2) 16)
    with (Z.shiftl (Z.shiftl (b1 * 2 ^ 8 + b2) 8) 8)
    by (rewrite Z.shiftl_shiftl by lia; reflexivity).
  rewrite <- Z.shiftl_lor.
  rewrite (lor_shiftl_low (b1 * 2 ^ 8 + b2) b3 8) by lia.
  rewrite (lor_shiftl_low _ b4 8) by lia.
  change (2 ^ 8)%Z with 256%Z. change (2 ^ 32)%Z with 4294967296%Z.
  rewrite Z.mod_small by lia. lia.
Qed.

(** ** The rows of the list screen *)

Lemma drawnRows_app (ops1 ops2 : list DrawOp) :
  drawnRows (ops1 ++ ops2) = drawnRows ops1 ++ drawnRows ops2.
Proof.
  induction ops1 as [|o ops1 IH]; cbn; [ reflexivity | ].
  destruct o; cbn; now rewrite IH.
Qed.

Lemma highlights_app (ops1 ops2 : list DrawOp) :
  highlights (ops1 ++ ops2) = highlights ops1 + highlights ops2.
Proof.
  induction ops1 as [|o ops1 IH]; cbn; [ reflexivity | ].
  destruct o; cbn; now rewrite IH.
Qed.

Lemma size_as_int_le (a : Activity) :
  (size_as_int a <= Z.of_nat (List.length (mangaList a)))%Z.
Proof.
  unfold size_as_int. apply wrap_int_le. apply Nat2Z.is_nonneg.
Qed.

Lemma size_as_int_isInt (a : Activity) : isInt (size_as_int a).
Proof.
  unfold size_as_int. apply wrap_int_isInt.
Qed.

Lemma entryAt_in_range (index : Z) (a : Activity) :
  (0 <= index < size_as_int a)%Z ->
  entryAt index a
  = Some (nth (Z.to_nat index) (mangaList a) (mkMangaEntry [] [])).
Proof.
  intros H. unfold entryAt.
  replace (index <? 0)%Z with false by (symmetry; apply Z.ltb_ge; lia).
  apply nth_error_nth'.
  assert (Hle := size_as_int_le a). lia.
Qed.

(** The loop from round [i] on: it never reads outside the list, and the
    rows it draws are those of the entries [listOffset + i] and up, as many
    as fit. *)
Lemma drawItems_from (pageWidth : Z) (metrics : ThemeMetrics)
  (contentY itemHeight visibleItems listOffset : Z) (a : Activity) :
  isInt visibleItems ->
  (0 <= listOffset)%Z ->
  forall (fuel : nat) (i : Z),
    (0 <= i)%Z ->
    (listOffset + i <= INT_MAX)%Z ->
    Z.to_nat (visibleItems - i) <= fuel ->
    exists ops : list DrawOp,
      drawItems fuel pageWidth metrics contentY itemHeight visibleItems
        listOffset i a = Some ops
      /\ drawnRows ops
         = map (rowOf a)
             (seq (Z.to_nat (listOffset + i))
                  (Z.to_nat
                     (Z.min visibleItems (size_as_int a - listOffset) - i)))
      /\ highlights ops
         = List.length
             (filter (fun k => (Z.of_nat k =? currentMangaIndex a)%Z)
                (seq (Z.to_nat (listOffset + i))
                     (Z.to_nat
                        (Z.min visibleItems (size_as_int a - listOffset)
                         - i)))).
Proof.
  intros Hv Hlo.
  assert (Hsz := size_as_int_isInt a).
  induction fuel as [|fuel IH]; intros i Hi Hsum Hfuel.
  - exists []. cbn [drawItems].
    replace (Z.to_nat (Z.min visibleItems (size_as_int a - listOffset) - i))
      with 0 by lia.
    now repeat split.
  - cbn [drawItems].
    assert (Hadd : int_add listOffset i = (listOffset + i)%Z).
    { unfold int_add. apply wrap_int_small.
      unfold INT_MIN, INT_MAX in *. lia. }
    rewrite Hadd.
    destruct ((i <? visibleItems)
              && (listOffset + i <? size_as_int a))%Z eqn:Eguard.
    + apply andb_true_iff in Eguard. destruct Eguard as [E1 E2].
      apply Z.ltb_lt in E1. apply Z.ltb_lt in E2.
      unfold drawItem. rewrite Hadd.
      rewrite entryAt_in_range by lia.
      assert (Hnext : int_add i 1 = (i + 1)%Z).
      { unfold int_add. apply wrap_int_small.
        unfold isInt, INT_MIN, INT_MAX in *. lia. }
      rewrite Hnext.
      destruct (IH (i + 1)%Z) as [rest [Hrest [Hrows Hhl]]].
      * lia.
      * unfold isInt, INT_MAX in *. lia.
      * lia.
      * rewrite Hrest. eexists. split; [ reflexivity | ].
        replace (Z.to_nat
                   (Z.min visibleItems (size_as_int a - listOffset) - i))
          with (S (Z.to_nat
                     (Z.min visibleItems (size_as_int a - listOffset)
                      - (i + 1)))) by lia.
        replace (Z.to_nat (listOffset + (i + 1)))
          with (S (Z.to_nat (listOffset + i))) in Hrows, Hhl by lia.
        cbn [seq map filter].
        rewrite drawnRows_app, highlights_app, Hrows, Hhl.
        rewrite Z2Nat.id by lia.
        assert (Hrow : rowOf a (Z.to_nat (listOffset + i))
                       = (c_str (title (nth (Z.to_nat (listOffset + i))
                                          (mangaList a) (mkMangaEntry [] []))),
                          negb (listOffset + i =? currentMangaIndex a)%Z)).
        { unfold rowOf. now rewrite Z2Nat.id by lia. }
        rewrite Hrow.
        destruct (listOffset + i =? currentMangaIndex a)%Z;
          cbn; split; reflexivity.
    + exists [].
      apply andb_false_iff in Eguard.
      replace (Z.to_nat (Z.min visibleItems (size_as_int a - listOffset) - i))
        with 0
        by (destruct Eguard as [E|E]; apply Z.ltb_ge in E; lia).
      now repeat split.
Qed.

Lemma listOffsetOf_range (visibleItems : Z) (a : Activity) :
  (0 <= listOffsetOf visibleItems a <= INT_MAX)%Z.
Proof.
  unfold listOffsetOf, int_sub.
  assert (H := wrap_int_isInt
                 (currentMangaIndex a - int_half visibleItems)).
  unfold isInt, INT_MIN, INT_MAX in *. lia.
Qed.

(** More rounds than [visibleItems] are never used. *)
Lemma drawItems_fuel (pageWidth : Z) (metrics : ThemeMetrics)
  (contentY itemHeight visibleItems listOffset : Z) (a : Activity) :
  isInt visibleItems ->
  forall (fuel : nat) (i : Z),
    (0 <= i)%Z ->
    Z.to_nat (visibleItems - i) <= fuel ->
    forall more : nat,
      drawItems (fuel + more) pageWidth metrics contentY itemHeight
        visibleItems listOffset i a
      = drawItems fuel pageWidth metrics contentY itemHeight visibleItems
          listOffset i a.
Proof.
  intros Hv. induction fuel as [|fuel IH]; intros i Hi Hfuel more.
  - destruct more as [|more]; [ reflexivity | ].
    cbn [Nat.add drawItems].
    replace (i <? visibleItems)%Z with false
      by (symmetry; apply Z.ltb_ge; lia).
    reflexivity.
  - cbn [Nat.add drawItems].
    destruct (i <? visibleItems)%Z eqn:E; [ | reflexivity ].
    apply Z.ltb_lt in E. cbn [andb].
    destruct (int_add listOffset i <? size_as_int a)%Z; [ | reflexivity ].
    destruct (drawItem _ _ _ _ _ _ _); [ | reflexivity ].
    assert (Hnext : int_add i 1 = (i + 1)%Z).
    { unfold int_add. apply wrap_int_small.
      unfold isInt, INT_MIN, INT_MAX in *. lia. }
    rewrite Hnext, IH by lia. reflexivity.
Qed.

(** X14. The list screen reads the list only inside its bounds and draws a
    window of it: for any cursor and any number of visible items the loop
    has a result, and the rows it draws are the titles of the entries from
    [listOffset] on, in list order, as many as the smaller of
    [visibleItems] and "size minus [listOffset]"; a row is drawn inverted
    exactly when it is the entry under the cursor, and one highlight bar is
    drawn for each such row.  Rounds beyond [visibleItems] change
    nothing. *)
Theorem list_window_rows :
  forall (pageWidth : Z) (metrics : ThemeMetrics)
         (contentY itemHeight visibleItems : Z) (a : Activity) (more : nat),
    isInt visibleItems ->
    exists ops : list DrawOp,
      drawItems (Z.to_nat visibleItems + more) pageWidth metrics contentY
        itemHeight visibleItems (listOffsetOf visibleItems a) 0 a = Some ops
      /\ drawnRows ops
         = map (rowOf a)
             (seq (Z.to_nat (listOffsetOf visibleItems a))
                  (rowCount visibleItems a))
      /\ highlights ops
         = List.length
             (filter (fun k => (Z.of_nat k =? currentMangaIndex a)%Z)
                (seq (Z.to_nat (listOffsetOf visibleItems a))
                     (rowCount visibleItems a)))
      /\ (forall k : nat,
            In k (seq (Z.to_nat (listOffsetOf visibleItems a))
                      (rowCount visibleItems a)) ->
            k < List.length (mangaList a)).
Proof.
  intros pageWidth metrics contentY itemHeight visibleItems a more Hv.
  assert (Hlo := listOffsetOf_range visibleItems a).
  destruct (drawItems_from pageWidth metrics contentY itemHeight visibleItems
              (listOffsetOf visibleItems a) a Hv (proj1 Hlo)
              (Z.to_nat visibleItems) 0%Z)
    as [ops [Hops [Hrows Hhl]]]; try lia.
  rewrite Z.add_0_r, Z.sub_0_r in *.
  fold (rowCount visibleItems a) in *.
  exists ops. split.
  - rewrite drawItems_fuel by (try assumption; lia). exact Hops.
  - split; [ exact Hrows | ]. split; [ exact Hhl | ].
    intros k Hk. apply in_seq in Hk.
    unfold rowCount in Hk. assert (Hle := size_as_int_le a). lia.
Qed.

Lemma list_window_rows_witness :
  exists ops : list DrawOp,
    drawItems (Z.to_nat 14 + 3) 480 (mkThemeMetrics 10 40 5 40 50 10) 55 50 14
      (listOffsetOf 14 browsingTwoEntries) 0 browsingTwoEntries = Some ops
    /\ drawnRows ops
       = map (rowOf browsingTwoEntries)
           (seq (Z.to_nat (listOffsetOf 14 browsingTwoEntries))
                (rowCount 14 browsingTwoEntries))
    /\ highlights ops
       = List.length
           (filter
              (fun k =>
                 (Z.of_nat k =? currentMangaIndex browsingTwoEntries)%Z)
              (seq (Z.to_nat (listOffsetOf 14 browsingTwoEntries))
                   (rowCount 14 browsingTwoEntries)))
    /\ (forall k : nat,
          In k (seq (Z.to_nat (listOffsetOf 14 browsingTwoEntries))
                    (rowCount 14 browsingTwoEntries)) ->
          k < List.length (mangaList browsingTwoEntries)).
Proof.
  apply (list_window_rows 480 (mkThemeMetrics 10 40 5 40 50 10) 55 50 14
           browsingTwoEntries 3).
  unfold isInt, INT_MIN, INT_MAX. lia.
Defined.

Lemma filter_seq_none (x : Z) (s n : nat) :
  (x < Z.of_nat s)%Z ->
  filter (fun k => (Z.of_nat k =? x)%Z) (seq s n) = [].
Proof.
  revert s. induction n as [|n IH]; intros s Hs; cbn [seq filter].
  - reflexivity.
  - replace (Z.of_nat s =? x)%Z with false
      by (symmetry; apply Z.eqb_neq; lia).
    apply IH. lia.
Qed.

Lemma filter_seq_one (x : Z) (s n : nat) :
  (Z.of_nat s <= x < Z.of_nat s + Z.of_nat n)%Z ->
  filter (fun k => (Z.of_nat k =? x)%Z) (seq s n) = [Z.to_nat x].
Proof.
  revert s. induction n as [|n IH]; intros s Hs; cbn [seq filter].
  - lia.
  - destruct (Z.of_nat s =? x)%Z eqn:E.
    + apply Z.eqb_eq in E. rewrite filter_seq_none by lia.
      f_equal. lia.
    + apply Z.eqb_neq in E. apply IH. lia.
Qed.

Lemma filter_inverted_rows (a : Activity) (ks : list nat) :
  filter (fun row => negb (snd row)) (map (rowOf a) ks)
  = map (rowOf a)
      (filter (fun k => (Z.of_nat k =? currentMangaIndex a)%Z) ks).
Proof.
  induction ks as [|k ks IH]; cbn [map filter]; [ reflexivity | ].
  unfold rowOf at 1. cbn [snd]. rewrite negb_involutive.
  destruct (Z.of_nat k =? currentMangaIndex a)%Z; cbn [map]; now rewrite IH.
Qed.

Lemma int_half_range (v : Z) :
  (1 <= v)%Z -> (0 <= int_half v < v)%Z.
Proof.
  intros Hv. unfold int_half.
  rewrite Z.quot_div_nonneg by lia.
  Z.div_mod_to_equations. lia.
Qed.

(** X15. The entry under the cursor is always on the list screen, once:
    with the cursor on an entry and room for at least one row, the loop
    draws exactly one highlight bar and exactly one inverted row, and that
    row carries the title of the entry under the cursor. *)
Theorem selected_row_is_drawn_once :
  forall (pageWidth : Z) (metrics : ThemeMetrics)
         (contentY itemHeight visibleItems : Z) (a : Activity),
    selectionValid a = true ->
    isInt visibleItems ->
    (1 <= visibleItems)%Z ->
    exists (ops : list DrawOp) (e : MangaEntry),
      drawItems (Z.to_nat visibleItems) pageWidth metrics contentY itemHeight
        visibleItems (listOffsetOf visibleItems a) 0 a = Some ops
      /\ nth_error (mangaList a) (Z.to_nat (currentMangaIndex a)) = Some e
      /\ highlights ops = 1
      /\ filter (fun row => negb (snd row)) (drawnRows ops)
         = [(c_str (title e), false)].
Proof.
  intros pageWidth metrics contentY itemHeight visibleItems a Hvalid Hv Hone.
  destruct (selectionValid_nth_error a Hvalid) as [e [Hnth Hdef]].
  unfold selectionValid in Hvalid. apply andb_true_iff in Hvalid.
  destruct Hvalid as [H0 H1]. apply Z.leb_le in H0. apply Z.ltb_lt in H1.
  assert (Hsz := size_as_int_isInt a).
  assert (Hhalf := int_half_range visibleItems Hone).
  assert (Hlo : listOffsetOf visibleItems a
                = Z.max 0 (currentMangaIndex a - int_half visibleItems)).
  { unfold listOffsetOf, int_sub. rewrite wrap_int_small; [ reflexivity | ].
    unfold isInt, INT_MIN, INT_MAX in *. lia. }
  destruct (drawItems_from pageWidth metrics contentY itemHeight visibleItems
              (listOffsetOf visibleItems a) a Hv)
    with (fuel := Z.to_nat visibleItems) (i := 0%Z)
    as [ops [Hops [Hrows Hhl]]];
    try (unfold isInt, INT_MAX in *; lia).
  rewrite Z.add_0_r, Z.sub_0_r in *.
  assert (Hone' : filter (fun k => (Z.of_nat k =? currentMangaIndex a)%Z)
                    (seq (Z.to_nat (listOffsetOf visibleItems a))
                       (Z.to_nat
                          (Z.min visibleItems
                             (size_as_int a - listOffsetOf visibleItems a))))
                  = [Z.to_nat (currentMangaIndex a)]).
  { apply filter_seq_one. rewrite Hlo. lia. }
  exists ops, e. split; [ exact Hops | ]. split; [ exact Hnth | ]. split.
  - rewrite Hhl, Hone'. reflexivity.
  - rewrite Hrows, filter_inverted_rows, Hone'. cbn [map].
    unfold rowOf. rewrite Hdef, Z2Nat.id by lia.
    now rewrite Z.eqb_refl.
Qed.

Lemma selected_row_is_drawn_once_witness :
  exists (ops : list DrawOp) (e : MangaEntry),
    drawItems (Z.to_nat 14) 480 (mkThemeMetrics 10 40 5 40 50 10) 55 50 14
      (listOffsetOf 14 browsingTwoEntries) 0 browsingTwoEntries = Some ops
    /\ nth_error (mangaList browsingTwoEntries)
                 (Z.to_nat (currentMangaIndex browsingTwoEntries)) = Some e
    /\ highlights ops = 1
    /\ filter (fun row => negb (snd row)) (drawnRows ops)
       = [(c_str (title e), false)].
Proof.
  apply (selected_row_is_drawn_once 480 (mkThemeMetrics 10 40 5 40 50 10)
           55 50 14 browsingTwoEntries).
  - reflexivity.
  - unfold isInt, INT_MIN, INT_MAX. lia.
  - lia.
Defined.

(** ** When [render] has a result *)

Lemma int_div_isInt (x y q : Z) :
  isInt x -> int_div x y = Some q -> isInt q.
Proof.
  unfold int_div, isInt, INT_MIN, INT_MAX. intros Hx Hdiv.
  destruct (y =? 0)%Z eqn:Ey; [ discriminate Hdiv | ].
  apply Z.eqb_neq in Ey.
  destruct ((x =? - 2 ^ 31) && (y =? -1))%Z eqn:Em; [ discriminate Hdiv | ].
  cbn [orb] in Hdiv. injection Hdiv as <-.
  apply andb_false_iff in Em.
  assert (Habs : (Z.abs (Z.quot x y) <= Z.abs x)%Z).
  { rewrite <- Z.quot_abs by exact Ey.
    rewrite Z.quot_div_nonneg by lia.
    apply Z.div_le_upper_bound; [ lia | ].
    nia. }
  destruct (Z.eq_dec y (-1)) as [->|Hy].
  - destruct Em as [Em|Em]; [ | discriminate Em ].
    apply Z.eqb_neq in Em.
    change (-1)%Z with (Z.opp 1).
    rewrite Z.quot_opp_r, Z.quot_1_r by lia. lia.
  - destruct (Z.eq_dec x (- 2 ^ 31)) as [->|Hxmin]; [ | lia ].
    destruct (Z.eq_dec y 1) as [->|Hy1];
      [ rewrite Z.quot_1_r; lia | ].
    assert (Hhalf : (Z.abs (Z.quot (- 2 ^ 31) y) <= 2 ^ 30)%Z).
    { rewrite <- Z.quot_abs by exact Ey.
      rewrite Z.quot_div_nonneg by lia.
      apply Z.div_le_upper_bound; [ lia | ].
      change (Z.abs (- 2 ^ 31)) with 2147483648%Z.
      change (2 ^ 30)%Z with 1073741824%Z. lia. }
    change (2 ^ 30)%Z with 1073741824%Z in Hhalf. lia.
Qed.

Lemma contentHeightOf_isInt (pageHeight : Z) (metrics : ThemeMetrics) :
  isInt (contentHeightOf pageHeight metrics).
Proof.
  unfold contentHeightOf, int_sub. apply wrap_int_isInt.
Qed.

Lemma renderList_defined (pageWidth pageHeight : Z) (metrics : ThemeMetrics)
  (a : Activity) :
  renderList pageWidth pageHeight metrics a = None
  <-> int_div (contentHeightOf pageHeight metrics) (listRowHeight metrics)
      = None.
Proof.
  unfold renderList. cbv zeta.
  destruct (int_div _ _) as [v|] eqn:Ediv; [ | tauto ].
  assert (Hv := int_div_isInt _ _ _ (contentHeightOf_isInt _ _) Ediv).
  destruct (mangaList a) as [|e l] eqn:El; [ split; discriminate | ].
  assert (Hlo := listOffsetOf_range v a).
  destruct (drawItems_from pageWidth metrics (contentYOf metrics)
              (listRowHeight metrics) v (listOffsetOf v a) a Hv (proj1 Hlo)
              (Z.to_nat v) 0%Z)
    as [ops [Hops _]]; try lia.
  rewrite Hops. split; discriminate.
Qed.

Lemma renderLoadingPage_defined (pageHeight : Z) (a : Activity) :
  renderLoadingPage pageHeight a = None
  <-> mangaList a <> []
      /\ (Z.of_nat (List.length (mangaList a)) <= currentMangaIndex a)%Z.
Proof.
  unfold renderLoadingPage. cbv zeta.
  destruct (mangaList a) as [|e l] eqn:El.
  - split; [ discriminate | intros [H _]; now elim H ].
  - destruct (0 <=? currentMangaIndex a)%Z eqn:E0.
    + apply Z.leb_le in E0. unfold entryAt.
      replace (currentMangaIndex a <? 0)%Z with false
        by (symmetry; apply Z.ltb_ge; lia).
      rewrite El.
      destruct (nth_error (e :: l) (Z.to_nat (currentMangaIndex a)))
        as [entry|] eqn:En.
      * assert (Hlt : Z.to_nat (currentMangaIndex a) < List.length (e :: l))
          by (apply nth_error_Some; congruence).
        split; [ discriminate | intros [_ H]; lia ].
      * apply nth_error_None in En.
        split; [ intros _ | reflexivity ].
        split; [ discriminate | lia ].
    + apply Z.leb_gt in E0.
      split; [ discriminate | ].
      intros [_ H]. cbn [List.length] in H. lia.
Qed.

(** X16. [render] has a result except in two situations: on the list
    screen when the row height of the theme makes the division for the
    number of visible items undefined, and on the page-loading screens when
    the list is not empty and the cursor is at or past its end, where the
    title is read outside the list. *)
Theorem render_defined_iff :
  forall (connectedCount : nat) (pageWidth pageHeight : Z)
         (metrics : ThemeMetrics) (a : Activity),
    render connectedCount pageWidth pageHeight metrics a = None
    <-> (state a = BROWSING_LIST
         /\ int_div (contentHeightOf pageHeight metrics)
                    (listRowHeight metrics) = None)
        \/ ((state a = LOAD_PAGE \/ state a = RECEIVING_PAGE)
            /\ mangaList a <> []
            /\ (Z.of_nat (List.length (mangaList a))
                <= currentMangaIndex a)%Z).
Proof.
  intros c w h m a. unfold render. cbv zeta.
  assert (HL := renderList_defined w h m a).
  assert (HP := renderLoadingPage_defined h a).
  destruct (state a) eqn:Es;
    try (split;
         [ discriminate
         | intros [[H _]|[[H|H] _]]; discriminate H ]).
  - destruct (renderList w h m a).
    + split; [ discriminate | ].
      intros [[_ H]|[[H|H] _]]; try discriminate H.
      apply HL in H. discriminate H.
    + split; [ intros _; left; split; [ reflexivity | now apply HL ]
             | reflexivity ].
  - destruct (renderLoadingPage h a).
    + split; [ discriminate | ].
      intros [[H _]|[_ H]]; [ discriminate H | ].
      apply HP in H. discriminate H.
    + split; [ intros _; right; split; [ now left | now apply HP ]
             | reflexivity ].
  - destruct (renderLoadingPage h a).
    + split; [ discriminate | ].
      intros [[H _]|[_ H]]; [ discriminate H | ].
      apply HP in H. discriminate H.
    + split; [ intros _; right; split; [ now right | now apply HP ]
             | reflexivity ].
Qed.

(** X17. The page-loading screen can be asked to read past the list: in
    LOAD_PAGE or RECEIVING_PAGE with the cursor at 1 or more, a LIST_START
    frame followed by one well-formed LIST_ENTRY frame leaves state and
    cursor as they are and the list with a single entry, and [render] then
    has no result. *)
Theorem relisting_during_page_load_breaks_render :
  forall (connectedCount : nat) (pageWidth pageHeight : Z)
         (metrics : ThemeMetrics) (a : Activity)
         (mangaId mangaTitle : list byte),
    state a = LOAD_PAGE \/ state a = RECEIVING_PAGE ->
    (1 <= currentMangaIndex a)%Z ->
    List.length mangaId <= 255 ->
    List.length mangaTitle <= 255 ->
    exists a' : Activity,
      run [FrameReceived [BleStatus.LIST_START];
           FrameReceived (encodeListEntry mangaId mangaTitle)] a = Some a'
      /\ state a' = state a
      /\ currentMangaIndex a' = currentMangaIndex a
      /\ mangaList a' = [mkMangaEntry mangaId mangaTitle]
      /\ render connectedCount pageWidth pageHeight metrics a' = None.
Proof.
  intros c w h m a i t Hs Hidx Hi Ht.
  cbn [run step].
  rewrite <- (app_nil_r (encodeListEntry i t)).
  rewrite (list_entry_round_trip_aux _ i t [] Hi Ht).
  rewrite onWrite_cons. cbn.
  eexists. split; [ reflexivity | ]. cbn.
  repeat split.
  unfold render. cbn.
  assert (Hnone : nth_error [mkMangaEntry i t]
                    (Z.to_nat (currentMangaIndex a)) = None)
    by (apply nth_error_None; cbn; lia).
  destruct Hs as [Hs|Hs]; rewrite Hs; unfold renderLoadingPage, entryAt; cbn;
    replace (0 <=? currentMangaIndex a)%Z with true
      by (symmetry; apply Z.leb_le; lia);
    replace (currentMangaIndex a <? 0)%Z with false
      by (symmetry; apply Z.ltb_ge; lia);
    now rewrite Hnone.
Qed.

Lemma relisting_during_page_load_breaks_render_witness :
  run secondPageSession constructed
  = Some (handleLoadPage
            (handleBrowsingList (press Confirm)
               (handleBrowsingList (press Down) browsingTwoEntries)))
  /\ exists a' : Activity,
       run [FrameReceived [BleStatus.LIST_START];
            FrameReceived (encodeListEntry [x33] [x43])]
           (handleLoadPage
              (handleBrowsingList (press Confirm)
                 (handleBrowsingList (press Down) browsingTwoEntries)))
       = Some a'
       /\ state a'
          = state (handleLoadPage
                     (handleBrowsingList (press Confirm)
                        (handleBrowsingList (press Down) browsingTwoEntries)))
       /\ currentMangaIndex a'
          = currentMangaIndex
              (handleLoadPage
                 (handleBrowsingList (press Confirm)
                    (handleBrowsingList (press Down) browsingTwoEntries)))
       /\ mangaList a' = [mkMangaEntry [x33] [x43]]
       /\ render 1 480 800 (mkThemeMetrics 10 40 5 40 50 10) a' = None.
Proof.
  split; [ reflexivity | ].
  apply (relisting_during_page_load_breaks_render 1 480 800
           (mkThemeMetrics 10 40 5 40 50 10)
           (handleLoadPage
              (handleBrowsingList (press Confirm)
                 (handleBrowsingList (press Down) browsingTwoEntries)))
           [x33] [x43]).
  - right. reflexivity.
  - vm_compute. discriminate.
  - cbn. lia.
  - cbn. lia.
Defined.

(** ** The reads of the frame handler stay inside the frame *)

(** X18. Whatever bytes a frame holds and however long it is, the handler
    runs to its end without reading outside the frame: every position of
    [data] it reads is below the length of the frame, each of the three
    length tests of a LIST_ENTRY frame and the one of a PAGE_DATA frame
    coming before the reads it guards, and the activity it leaves behind is
    the one [onWrite] gives. *)
Theorem handler_reads_inside_frame :
  forall (data : list byte) (a : Activity),
  exists reads : list nat,
    onWriteReading a data = Some (onWrite data a, reads)
    /\ Forall (fun i => i < List.length data) reads.
Proof.
  intros data a. apply onWriteReading_onWrite.
Qed.
